(** * PillPal: the dose-occurrence materializer and the compliance figure

    A shallow embedding of the decision logic of the two dashboards:

    - [PatientDashboard]: [loadData], [generateUpcomingDoses],
      [markDoseTaken] and [markDoseSkipped] of
      [src/components/PatientDashboard.tsx];
    - [CaregiverDashboard]: the per-patient figures computed by [loadData]
      of [src/components/CaregiverDashboard.tsx].

    The hosted database is modelled by the tables the code reads and
    writes, each a list of rows in storage order, with the column defaults
    and the foreign key of [dose_logs] taken from the first migration.
    Row-level policies are not modelled: the tables hold the rows the
    signed-in user may see. The service may answer with an error the two
    requests of the patient dashboard's load whose failure decides what
    the load does next: the medications query, after which the code has
    [if (medsError) throw medsError], and the insert of a dose log, whose
    [data] is then [null] and the entry listed without a dose log.
    [Db.refuses] says, for each of these requests in turn, with which
    error it is answered, if with any. The window lookup, the updates and
    the requests of the other components are taken as answered.

    A JavaScript [Date] is its time value in milliseconds since the epoch
    ([None] for an Invalid Date). The local time zone is ECMAScript's
    [LocalTZA]: the offset of local time from UTC in effect at an instant
    or at a local time, so that the offset may change in the course of a
    day. Time values and the integers [parseInt] returns are exact
    integers; the one computation whose rounding matters, the compliance
    percentage, is carried out in IEEE 754 binary64. *)

From Stdlib Require Import ZArith List String Ascii Bool Lia.
From Stdlib Require Import Permutation DecimalString SpecFloat.
Import ListNotations.

Local Open Scope string_scope.
Local Open Scope list_scope.
Local Open Scope Z_scope.

Definition uuid := string.

(** ** Rows of the tables *)

Inductive Status := pending | taken | missed | skipped.

Definition Status_eqb (a b : Status) : bool :=
  match a, b with
  | pending, pending | taken, taken | missed, missed | skipped, skipped => true
  | _, _ => false
  end.

Module Medication.
Record t := mk {
  id : uuid;
  patient_id : uuid;
  name : string;
  dosage : string;
  instructions : string;
  active : bool;          (* SQL null reads as false in both uses *)
  created_at : Z
}.
End Medication.

Module Schedule.
Record t := mk {
  id : uuid;
  medication_id : uuid;
  time : string;          (* a Postgres [time], received as text *)
  days_of_week : list Z;  (* 0 = Sunday .. 6 = Saturday *)
  active : bool
}.
End Schedule.

Module DoseLog.
Record t := mk {
  id : uuid;
  schedule_id : uuid;
  scheduled_time : Z;
  taken_at : option Z;
  status : Status;
  notes : string
}.
End DoseLog.

Module CaregiverConnection.
Record t := mk {
  id : uuid;
  patient_id : uuid;
  caregiver_id : uuid;
  relationship : string;
  notify_missed_doses : bool
}.
End CaregiverConnection.

Module Db.
(** [gen_random_uuid n] is the identifier the database draws at its
    [n]-th insertion; [uuid_calls] counts the insertions so far.
    [refuses n] is the error with which the service answers the [n]-th
    request that may be refused, [None] when it answers it; [requests]
    counts these requests so far. *)
Record t := mk {
  medications : list Medication.t;
  schedules : list Schedule.t;
  dose_logs : list DoseLog.t;
  caregiver_connections : list CaregiverConnection.t;
  gen_random_uuid : nat -> uuid;
  uuid_calls : nat;
  refuses : nat -> option string;
  requests : nat
}.

(** The database once one more request has been answered or refused. *)
Definition asked (d : t) : t :=
  {| medications := medications d;
     schedules := schedules d;
     dose_logs := dose_logs d;
     caregiver_connections := caregiver_connections d;
     gen_random_uuid := gen_random_uuid d;
     uuid_calls := uuid_calls d;
     refuses := refuses d;
     requests := S (requests d) |}.
End Db.

(** ** ECMAScript dates *)

Definition msPerDay : Z := 86400000.
Definition msPerHour : Z := 3600000.
Definition msPerMinute : Z := 60000.

Definition Day (t : Z) : Z := t / msPerDay.
Definition WeekDay (t : Z) : Z := (Day t + 4) mod 7.

(** The local time zone adjustment [LocalTZA(t, isUTC)], in
    milliseconds: for [isUTC = true] the offset of local time from UTC in
    effect at the instant [t]; for [isUTC = false] the offset in effect
    at the local time [t], a local time that a change of offset skips or
    repeats being read with the offset before the change. *)
Definition Zone : Type := Z -> bool -> Z.

(** [LocalTime(t) = t + LocalTZA(t, true)] and
    [UTC(t) = t - LocalTZA(t, false)]. *)
Definition LocalTime (tz : Zone) (t : Z) : Z := t + tz t true.
Definition UTC (tz : Zone) (t : Z) : Z := t - tz t false.

Definition TimeClip (t : Z) : option Z :=
  if Z.abs t <=? 8640000000000000 then Some t else None.

Definition MakeTime (hour min sec ms : Z) : Z :=
  hour * msPerHour + min * msPerMinute + sec * 1000 + ms.

Definition MakeDate (day time : Z) : Z := day * msPerDay + time.

(** [now.getDay()] *)
Definition getDay (tz : Zone) (now : Z) : Z := WeekDay (LocalTime tz now).

(** [d.setHours(hour, min, 0, 0)] on a valid date [d]: the local date of
    [d] at the given local time, turned back into an instant with the
    offset in effect at that local time. A [NaN] argument ([None]) makes
    the date invalid. *)
Definition setHours (tz : Zone) (d : Z) (hour min : option Z) : option Z :=
  match hour, min with
  | Some h, Some m =>
      TimeClip (UTC tz (MakeDate (Day (LocalTime tz d)) (MakeTime h m 0 0)))
  | _, _ => None
  end.

(** ** [String.prototype.split] on one character, and [parseInt] *)

Fixpoint split_aux (sep : ascii) (s cur : string) : list string :=
  match s with
  | EmptyString => [cur]
  | String c s' =>
      if Ascii.eqb c sep then cur :: split_aux sep s' EmptyString
      else split_aux sep s' (String.append cur (String c EmptyString))
  end.

Definition split (sep : ascii) (s : string) : list string :=
  split_aux sep s EmptyString.

Definition isWhiteSpace (c : ascii) : bool :=
  let n := N_of_ascii c in
  orb (N.eqb n 32) (andb (N.leb 9 n) (N.leb n 13)).

Fixpoint trimStart (s : string) : string :=
  match s with
  | String c s' => if isWhiteSpace c then trimStart s' else s
  | EmptyString => s
  end.

Definition digitValue (c : ascii) : option Z :=
  let n := Z.of_N (N_of_ascii c) in
  if andb (48 <=? n) (n <=? 57) then Some (n - 48)
  else if andb (97 <=? n) (n <=? 122) then Some (n - 87)
  else if andb (65 <=? n) (n <=? 90) then Some (n - 55)
  else None.

Fixpoint parseDigits (radix : Z) (s : string) (acc : option Z) : option Z :=
  match s with
  | EmptyString => acc
  | String c s' =>
      match digitValue c with
      | Some d =>
          if d <? radix
          then parseDigits radix s'
                 (Some (match acc with Some a => a * radix + d | None => d end))
          else acc
      | None => acc
      end
  end.

(** [parseInt(s)] without a radix, on exact integers; [None] is [NaN].
    An absent array element ([undefined]) parses to [NaN] as well. *)
Definition parseInt (s : option string) : option Z :=
  match s with
  | None => None
  | Some s =>
      let s := trimStart s in
      let '(neg, s) :=
        match s with
        | String "-" r => (true, r)
        | String "+" r => (false, r)
        | _ => (false, s)
        end in
      let '(radix, s) :=
        match s with
        | String "0" (String "x" r) => (16, r)
        | String "0" (String "X" r) => (16, r)
        | _ => (10, s)
        end in
      option_map (fun v => if neg then - v else v) (parseDigits radix s None)
  end.

(** [Array.prototype.includes] on numbers. *)
Definition includes (l : list Z) (x : Z) : bool := existsb (Z.eqb x) l.

(** ** [Array.prototype.sort] with a comparator: a stable sort *)

Section Sort.
Context {A : Type} (cmp : A -> A -> Z).

Fixpoint sort_insert (x : A) (l : list A) : list A :=
  match l with
  | [] => [x]
  | y :: r => if cmp x y <=? 0 then x :: y :: r else y :: sort_insert x r
  end.

Fixpoint sort (l : list A) : list A :=
  match l with
  | [] => []
  | x :: r => sort_insert x (sort r)
  end.
End Sort.

(** [Array.prototype.slice(0, n)] *)
Definition slice0 {A : Type} (n : nat) (l : list A) : list A := firstn n l.

(** ** The component's view of the data *)

Record MedicationWithSchedule := {
  med : Medication.t;
  med_schedules : list Schedule.t   (* the rows embedded by the select *)
}.

Module UpcomingDose.
Record t := mk {
  id : string;
  medication : MedicationWithSchedule;
  schedule : Schedule.t;
  scheduledTime : Z;
  doseLog : option DoseLog.t
}.
End UpcomingDose.

(** The React state of [PatientDashboard] that the code below sets. *)
Record ComponentState := {
  medications : list MedicationWithSchedule;
  upcomingDoses : list UpcomingDose.t;
  loading : bool
}.

(** Everything a handler can read or change. *)
Record World := {
  LocalTZA : Zone;
  db : Db.t;
  state : ComponentState;
  console : list string    (* lines written by [console.error] *)
}.

(** ** Asynchronous code: state passing with exceptions *)

Inductive Result (A : Type) :=
| Ok (a : A)
| Throw (e : string).
Arguments Ok {A} a.
Arguments Throw {A} e.

Definition Async (A : Type) : Type := World -> World * Result A.

Definition ret {A} (a : A) : Async A := fun w => (w, Ok a).

Definition bind {A B} (m : Async A) (k : A -> Async B) : Async B :=
  fun w =>
    match m w with
    | (w', Ok a) => k a w'
    | (w', Throw e) => (w', Throw e)
    end.

Definition throw {A} (e : string) : Async A := fun w => (w, Throw e).

(** [try { body } catch (error) { handler }] *)
Definition try_catch {A} (body : Async A) (handler : string -> Async A)
  : Async A :=
  fun w =>
    match body w with
    | (w', Ok a) => (w', Ok a)
    | (w', Throw e) => handler e w'
    end.

(** [... finally { final }] *)
Definition finally {A} (body : Async A) (final : Async unit) : Async A :=
  fun w =>
    match body w with
    | (w', r) =>
        match final w' with
        | (w'', Ok _) => (w'', r)
        | (w'', Throw e) => (w'', Throw e)
        end
    end.

Declare Scope async_scope.
Delimit Scope async_scope with async.
Notation "x <- m ;; k" := (bind m (fun x => k))
  (at level 61, m at next level, right associativity) : async_scope.
Notation "m ;;; k" := (bind m (fun _ => k))
  (at level 61, right associativity) : async_scope.
Local Open Scope async_scope.

(** [for (const x of l) body], threading the loop's local variable. *)
Fixpoint forEach {A S} (l : list A) (body : A -> S -> Async S) (acc : S)
  : Async S :=
  match l with
  | [] => ret acc
  | x :: r => acc' <- body x acc ;; forEach r body acc'
  end.

(** The zone of the browser the code runs in. *)
Definition localZone : Async Zone := fun w => (w, Ok (LocalTZA w)).

Definition modify_db (f : Db.t -> Db.t) : Async unit :=
  fun w => ({| LocalTZA := LocalTZA w; db := f (db w);
               state := state w; console := console w |}, Ok tt).

Definition modify_state (f : ComponentState -> ComponentState) : Async unit :=
  fun w => ({| LocalTZA := LocalTZA w; db := db w;
               state := f (state w); console := console w |}, Ok tt).

Definition console_error (msg e : string) : Async unit :=
  fun w => ({| LocalTZA := LocalTZA w; db := db w;
               state := state w;
               console := console w
                          ++ [String.append msg (String.append " " e)] |},
            Ok tt).

Definition setMedications (meds : list MedicationWithSchedule) : Async unit :=
  modify_state (fun s => {| medications := meds;
                            upcomingDoses := upcomingDoses s;
                            loading := loading s |}).

Definition setUpcomingDoses (doses : list UpcomingDose.t) : Async unit :=
  modify_state (fun s => {| medications := medications s;
                            upcomingDoses := doses;
                            loading := loading s |}).

Definition setLoading (b : bool) : Async unit :=
  modify_state (fun s => {| medications := medications s;
                            upcomingDoses := upcomingDoses s;
                            loading := b |}).

(** [d.toISOString()]: the text denotes the instant itself, so the model
    keeps the time value; an Invalid Date raises a [RangeError]. *)
Definition toISOString (d : option Z) : Async Z :=
  match d with
  | Some t => ret t
  | None => throw "RangeError: Invalid time value"
  end.

(** ** The queries the patient dashboard issues *)

(** [.maybeSingle()]: the row when the result has exactly one, [null] when
    it is empty, and an error object with [data: null] when it has more. *)
Definition maybeSingle {A} (rows : list A) : option A :=
  match rows with
  | [r] => Some r
  | _ => None
  end.

Definition in_window (schedule_id : uuid) (lo hi : Z) (l : DoseLog.t) : bool :=
  String.eqb (DoseLog.schedule_id l) schedule_id
  && (lo <=? DoseLog.scheduled_time l)
  && (DoseLog.scheduled_time l <? hi).

(** [from('dose_logs').select('*').eq('schedule_id', id)
      .gte('scheduled_time', lo).lt('scheduled_time', hi).maybeSingle()];
    the code reads [data] only. *)
Definition select_dose_log (schedule_id : uuid) (lo hi : Z)
  : Async (option DoseLog.t) :=
  fun w =>
    (w, Ok (maybeSingle
              (filter (in_window schedule_id lo hi) (Db.dose_logs (db w))))).

Definition new_dose_log (d : Db.t) (schedule_id : uuid) (t : Z) : DoseLog.t :=
  {| DoseLog.id := Db.gen_random_uuid d (Db.uuid_calls d);
     DoseLog.schedule_id := schedule_id;
     DoseLog.scheduled_time := t;
     DoseLog.taken_at := None;
     DoseLog.status := pending;
     DoseLog.notes := "" |}.

Definition schedule_exists (d : Db.t) (schedule_id : uuid) : bool :=
  existsb (fun s => String.eqb (Schedule.id s) schedule_id) (Db.schedules d).

(** [from('dose_logs').insert({schedule_id, scheduled_time,
      status: 'pending'}).select().single()]: the remaining columns take
    their defaults. The row is not stored, and [data] is [null], when the
    service refuses the request or [schedule_id] references no schedule;
    the code reads [data] only. *)
Definition inserted (d : Db.t) (schedule_id : uuid) (t : Z)
  : option DoseLog.t :=
  match Db.refuses d (Db.requests d) with
  | Some _ => None
  | None =>
      if schedule_exists d schedule_id
      then Some (new_dose_log d schedule_id t)
      else None
  end.

Definition insert_dose_log (schedule_id : uuid) (t : Z)
  : Async (option DoseLog.t) :=
  fun w =>
    let d := db w in
    match inserted d schedule_id t with
    | Some row =>
        ({| LocalTZA := LocalTZA w;
            db := {| Db.medications := Db.medications d;
                     Db.schedules := Db.schedules d;
                     Db.dose_logs := Db.dose_logs d ++ [row];
                     Db.caregiver_connections := Db.caregiver_connections d;
                     Db.gen_random_uuid := Db.gen_random_uuid d;
                     Db.uuid_calls := S (Db.uuid_calls d);
                     Db.refuses := Db.refuses d;
                     Db.requests := S (Db.requests d) |};
            state := state w; console := console w |}, Ok (Some row))
    | None =>
        ({| LocalTZA := LocalTZA w; db := Db.asked d;
            state := state w; console := console w |}, Ok None)
    end.

(** [from('dose_logs').update(...).eq('id', id)] *)
Definition update_dose_logs (id : uuid) (f : DoseLog.t -> DoseLog.t)
  : Async unit :=
  modify_db (fun d =>
    {| Db.medications := Db.medications d;
       Db.schedules := Db.schedules d;
       Db.dose_logs :=
         map (fun l => if String.eqb (DoseLog.id l) id then f l else l)
             (Db.dose_logs d);
       Db.caregiver_connections := Db.caregiver_connections d;
       Db.gen_random_uuid := Db.gen_random_uuid d;
       Db.uuid_calls := Db.uuid_calls d;
       Db.refuses := Db.refuses d;
       Db.requests := Db.requests d |}).

(** [from('medications').select(medications and their schedules)
      .eq('active', true).order('created_at', { ascending: false })] *)
Definition active_medications (d : Db.t) : list MedicationWithSchedule :=
  let rows := filter Medication.active (Db.medications d) in
  let ordered :=
    sort (fun a b => Medication.created_at b - Medication.created_at a) rows in
  map (fun m =>
         {| med := m;
            med_schedules :=
              filter (fun s => String.eqb (Schedule.medication_id s)
                                          (Medication.id m))
                     (Db.schedules d) |})
      ordered.

(** The reply to that query: [data], or the [error] the service answers
    with. *)
Definition select_active_medications
  : Async (list MedicationWithSchedule + string) :=
  fun w =>
    let d := db w in
    ({| LocalTZA := LocalTZA w; db := Db.asked d;
        state := state w; console := console w |},
     Ok (match Db.refuses d (Db.requests d) with
         | Some medsError => inr medsError
         | None => inl (active_medications d)
         end)).

(** The row after [update({ status: 'taken', taken_at: now })] and after
    [update({ status: 'skipped' })]. *)
Definition mark_taken (now : Z) (l : DoseLog.t) : DoseLog.t :=
  {| DoseLog.id := DoseLog.id l;
     DoseLog.schedule_id := DoseLog.schedule_id l;
     DoseLog.scheduled_time := DoseLog.scheduled_time l;
     DoseLog.taken_at := Some now;
     DoseLog.status := taken;
     DoseLog.notes := DoseLog.notes l |}.

Definition mark_skipped (l : DoseLog.t) : DoseLog.t :=
  {| DoseLog.id := DoseLog.id l;
     DoseLog.schedule_id := DoseLog.schedule_id l;
     DoseLog.scheduled_time := DoseLog.scheduled_time l;
     DoseLog.taken_at := DoseLog.taken_at l;
     DoseLog.status := skipped;
     DoseLog.notes := DoseLog.notes l |}.

(** ** PatientDashboard *)

Module PatientDashboard.

Definition string_of_Z (z : Z) : string :=
  NilZero.string_of_int (Z.to_int z).

Definition mkDose (m : MedicationWithSchedule) (schedule : Schedule.t)
           (scheduledTime : Z) (log : option DoseLog.t) : UpcomingDose.t :=
  {| UpcomingDose.id :=
       String.append (Schedule.id schedule) (string_of_Z scheduledTime);
     UpcomingDose.medication := m;
     UpcomingDose.schedule := schedule;
     UpcomingDose.scheduledTime := scheduledTime;
     UpcomingDose.doseLog := log |}.

(** [scheduledTime] of the inner loop: today's date at the schedule's
    hour and minute, local time. *)
Definition scheduledTimeOf (tz : Zone) (now : Z) (schedule : Schedule.t)
  : option Z :=
  let parts := split ":" (Schedule.time schedule) in
  let hours := nth_error parts 0 in
  let minutes := nth_error parts 1 in
  setHours tz now (parseInt hours) (parseInt minutes).

(** The body of the inner loop of [generateUpcomingDoses]; [doses] is
    the array the loop pushes onto. *)
Definition occurrence (now today : Z) (m : MedicationWithSchedule)
           (schedule : Schedule.t) (doses : list UpcomingDose.t)
  : Async (list UpcomingDose.t) :=
  if negb (includes (Schedule.days_of_week schedule) today) then ret doses
  else
    tz <- localZone ;;
    let scheduledTime := scheduledTimeOf tz now schedule in
    lo <- toISOString scheduledTime ;;
    hi <- toISOString (TimeClip (lo + 60000)) ;;
    existingLog <- select_dose_log (Schedule.id schedule) lo hi ;;
    match existingLog with
    | None =>
        if lo - now <? 3600000 then
          newLog <- insert_dose_log (Schedule.id schedule) lo ;;
          ret (doses ++ [mkDose m schedule lo newLog])
        else ret doses
    | Some log => ret (doses ++ [mkDose m schedule lo (Some log)])
    end.

(** The comparator of the final sort. *)
Definition by_time (a b : UpcomingDose.t) : Z :=
  UpcomingDose.scheduledTime a - UpcomingDose.scheduledTime b.

Definition generateUpcomingDoses (now : Z)
           (meds : list MedicationWithSchedule) : Async unit :=
  tz <- localZone ;;
  let today := getDay tz now in
  doses <- forEach meds
             (fun m doses =>
                forEach (filter Schedule.active (med_schedules m))
                        (occurrence now today m) doses)
             [] ;;
  setUpcomingDoses (slice0 5 (sort by_time doses)).

Definition loadData (now : Z) : Async unit :=
  finally
    (try_catch
       (reply <- select_active_medications ;;
        match reply with
        | inr medsError => throw medsError
        | inl meds =>
            setMedications meds ;;;
            generateUpcomingDoses now meds
        end)
       (fun e => console_error "Error loading data:" e))
    (setLoading false).

(** [now] is the clock when the button is pressed, [later] the clock
    when the reload that follows the write starts. *)
Definition markDoseTaken (dose : UpcomingDose.t) (now later : Z)
  : Async unit :=
  match UpcomingDose.doseLog dose with
  | None => ret tt
  | Some log =>
      try_catch
        (update_dose_logs (DoseLog.id log) (mark_taken now) ;;;
         loadData later)
        (fun e => console_error "Error marking dose taken:" e)
  end.

Definition markDoseSkipped (dose : UpcomingDose.t) (later : Z)
  : Async unit :=
  match UpcomingDose.doseLog dose with
  | None => ret tt
  | Some log =>
      try_catch
        (update_dose_logs (DoseLog.id log) mark_skipped ;;;
         loadData later)
        (fun e => console_error "Error marking dose skipped:" e)
  end.

(** The status a row of the list is drawn with,
    [dose.doseLog?.status ?? 'pending'], and the guard of the two
    buttons, [status === 'pending']. *)
Definition displayStatus (dose : UpcomingDose.t) : Status :=
  match UpcomingDose.doseLog dose with
  | Some log => DoseLog.status log
  | None => pending
  end.

Definition buttonsShown (dose : UpcomingDose.t) : bool :=
  Status_eqb (displayStatus dose) pending.

End PatientDashboard.

(** ** JavaScript numbers: IEEE 754 binary64 *)

Definition Number := spec_float.
Definition prec : Z := 53.
Definition emax : Z := 1024.

Definition Number_of_Z (n : Z) : Number := binary_normalize prec emax n 0 false.
Definition Number_div (x y : Number) : Number := SFdiv prec emax x y.
Definition Number_mul (x y : Number) : Number := SFmul prec emax x y.

(** [Math.round]: the integer nearest to [x], a tie going up. *)
Definition Math_round (x : Number) : Number :=
  match x with
  | S754_finite s m e =>
      let v := if s then Z.neg m else Z.pos m in
      let r := if 0 <=? e then v * 2 ^ e
               else (2 * v + 2 ^ (- e)) / (2 * 2 ^ (- e)) in
      if r =? 0 then S754_zero s else Number_of_Z r
  | _ => x
  end.

(** ** CaregiverDashboard *)

Module CaregiverDashboard.

Record PatientWithMedications := {
  patient : uuid;                    (* the joined profile's [id] *)
  medications : list Medication.t;
  missedDoses : Z;
  todayCompliance : Number;
  relationship : string
}.

(** [from('medications').select('*').eq('patient_id', id)
      .eq('active', true)] *)
Definition select_medications (d : Db.t) (id : uuid) : list Medication.t :=
  filter (fun m => String.eqb (Medication.patient_id m) id
                   && Medication.active m)
         (Db.medications d).

(** The inner joins of the dose-log query: the log's schedule exists and
    belongs to a medication of the patient. *)
Definition belongs_to (d : Db.t) (id : uuid) (l : DoseLog.t) : bool :=
  existsb
    (fun s =>
       String.eqb (Schedule.id s) (DoseLog.schedule_id l)
       && existsb
            (fun m => String.eqb (Medication.id m) (Schedule.medication_id s)
                      && String.eqb (Medication.patient_id m) id)
            (Db.medications d))
    (Db.schedules d).

(** [from('dose_logs').select(...).gte('scheduled_time', today)
      .eq('schedules.medications.patient_id', id)] *)
Definition select_dose_logs (d : Db.t) (today : Z) (id : uuid)
  : list DoseLog.t :=
  filter (fun l => (today <=? DoseLog.scheduled_time l) && belongs_to d id l)
         (Db.dose_logs d).

Definition count_status (st : Status) (logs : list DoseLog.t) : Z :=
  Z.of_nat (List.length (filter (fun l => Status_eqb (DoseLog.status l) st) logs)).

(** [totalDoses > 0 ? Math.round((takenDoses / totalDoses) * 100) : 100] *)
Definition compliance (totalDoses takenDoses : Z) : Number :=
  if 0 <? totalDoses
  then Math_round
         (Number_mul
            (Number_div (Number_of_Z takenDoses) (Number_of_Z totalDoses))
            (Number_of_Z 100))
  else Number_of_Z 100.

(** The body of the loop over the caregiver's connections. *)
Definition patientData (tz : Zone) (now : Z) (d : Db.t)
           (connection : CaregiverConnection.t)
  : Result PatientWithMedications :=
  let id := CaregiverConnection.patient_id connection in
  match setHours tz now (Some 0) (Some 0) with
  | None => Throw "RangeError: Invalid time value"
  | Some today =>
      let doseLogs := select_dose_logs d today id in
      let totalDoses := Z.of_nat (List.length doseLogs) in
      let takenDoses := count_status taken doseLogs in
      Ok {| patient := id;
            medications := select_medications d id;
            missedDoses := count_status missed doseLogs;
            todayCompliance := compliance totalDoses takenDoses;
            relationship := CaregiverConnection.relationship connection |}
  end.

(** The array [patientsData] built by [loadData] for the signed-in
    caregiver; [clock i] is the clock in the [i]-th iteration. *)
Fixpoint patientsData_from (tz : Zone) (clock : nat -> Z) (d : Db.t) (i : nat)
         (connections : list CaregiverConnection.t)
  : Result (list PatientWithMedications) :=
  match connections with
  | [] => Ok []
  | c :: rest =>
      match patientData tz (clock i) d c with
      | Throw e => Throw e
      | Ok p =>
          match patientsData_from tz clock d (S i) rest with
          | Throw e => Throw e
          | Ok ps => Ok (p :: ps)
          end
      end
  end.

Definition patientsData (tz : Zone) (clock : nat -> Z) (d : Db.t)
           (caregiver : uuid) : Result (list PatientWithMedications) :=
  patientsData_from tz clock d 0
    (filter (fun c => String.eqb (CaregiverConnection.caregiver_id c) caregiver)
            (Db.caregiver_connections d)).

End CaregiverDashboard.

(** ** The figure the specification names *)

(** [round(100 * K / N)] on exact rationals, a tie going up as in
    [Math.round]; 100 when there is no log. *)
Definition spec_compliance (N K : Z) : Z :=
  if N =? 0 then 100 else (200 * K + N) / (2 * N).

(** ** Notions the statements use *)

Definition logs (w : World) : list DoseLog.t := Db.dose_logs (db w).

(** The rows a run added to [dose_logs], given the worlds before and after. *)
Definition created (w w' : World) : list DoseLog.t :=
  skipn (List.length (logs w)) (logs w').

Definition fresh_row (l : DoseLog.t) : Prop :=
  DoseLog.status l = pending /\ DoseLog.taken_at l = None.

(** [w'] differs from [w] in the database by appended, fresh rows of
    [dose_logs] only (and by the counts of identifiers drawn and of
    requests made). *)
Definition only_creates (w w' : World) : Prop :=
  LocalTZA w' = LocalTZA w
  /\ Db.medications (db w') = Db.medications (db w)
  /\ Db.schedules (db w') = Db.schedules (db w)
  /\ Db.caregiver_connections (db w') = Db.caregiver_connections (db w)
  /\ Db.gen_random_uuid (db w') = Db.gen_random_uuid (db w)
  /\ Db.refuses (db w') = Db.refuses (db w)
  /\ exists extra, logs w' = logs w ++ extra /\ Forall fresh_row extra.

(** The service answers the next request that it may refuse, and every
    such request from now on. *)
Definition answers_next (w : World) : Prop :=
  Db.refuses (db w) (Db.requests (db w)) = None.

Definition answers_from_now_on (w : World) : Prop :=
  forall n, (Db.requests (db w) <= n)%nat -> Db.refuses (db w) n = None.

(** Every world an asynchronous computation can end in is [R]-related to
    the one it started from. *)
Definition preserves (R : World -> World -> Prop) {A} (m : Async A) : Prop :=
  forall w, R w (fst (m w)).

(** The (medication, schedule) pairs the two loops visit, in order. *)
Definition pairs (meds : list MedicationWithSchedule)
  : list (MedicationWithSchedule * Schedule.t) :=
  flat_map (fun m => map (pair m) (filter Schedule.active (med_schedules m)))
           meds.

Definition sid (p : MedicationWithSchedule * Schedule.t) : uuid :=
  Schedule.id (snd p).

(** What one turn of the inner loop does, given the rows of [dose_logs]
    it finds: nothing, raise, show the row found, or insert and show. *)
Inductive Plan :=
| Skip
| Invalid
| Existing (t : Z) (l : DoseLog.t)
| Create (t : Z).

Definition plan (tz : Zone) (now today : Z) (rows : list DoseLog.t)
           (s : Schedule.t) : Plan :=
  if negb (includes (Schedule.days_of_week s) today) then Skip
  else
    match PatientDashboard.scheduledTimeOf tz now s with
    | None => Invalid
    | Some t =>
        match TimeClip (t + 60000) with
        | None => Invalid
        | Some hi =>
            match maybeSingle (filter (in_window (Schedule.id s) t hi) rows) with
            | Some l => Existing t l
            | None => if t - now <? 3600000 then Create t else Skip
            end
        end
    end.

Definition plan_time (pl : Plan) : list Z :=
  match pl with
  | Existing t _ | Create t => [t]
  | Skip | Invalid => []
  end.

(** One turn of the flattened loop. *)
Definition visit (now today : Z) (p : MedicationWithSchedule * Schedule.t)
  : list UpcomingDose.t -> Async (list UpcomingDose.t) :=
  PatientDashboard.occurrence now today (fst p) (snd p).

(** Successive polls, at the given clock readings. *)
Fixpoint passes (nows : list Z) (w : World) : World :=
  match nows with
  | [] => w
  | now :: rest => passes rest (fst (PatientDashboard.loadData now w))
  end.

(** What the loop over [ps], started in [w] with [acc] pushed so far,
    has done when it ends in [r], [extra] being the rows appended. *)
Definition trace_ok (now today : Z) (ps : list (MedicationWithSchedule * Schedule.t))
           (acc : list UpcomingDose.t) (w : World)
           (extra : list DoseLog.t) (doses : list UpcomingDose.t) : Prop :=
  let P := fun p => plan (LocalTZA w) now today (logs w) (snd p) in
  (forall p, In p ps -> P p <> Invalid)
  /\ map UpcomingDose.scheduledTime doses
     = map UpcomingDose.scheduledTime acc
         ++ flat_map (fun p => plan_time (P p)) ps
  /\ (forall d, In d doses ->
                In d acc
                \/ exists p, In p ps /\ UpcomingDose.schedule d = snd p
                             /\ UpcomingDose.medication d = fst p
                             /\ In (UpcomingDose.scheduledTime d)
                                   (plan_time (P p))).

Definition trace (now today : Z) (ps : list (MedicationWithSchedule * Schedule.t))
           (acc : list UpcomingDose.t) (w : World)
           (r : World * Result (list UpcomingDose.t))
           (extra : list DoseLog.t) : Prop :=
  let P := fun p => plan (LocalTZA w) now today (logs w) (snd p) in
  logs (fst r) = logs w ++ extra
  /\ (forall l, In l extra ->
                exists p t, In p ps /\ P p = Create t
                            /\ DoseLog.schedule_id l = sid p
                            /\ DoseLog.scheduled_time l = t)
  /\ match snd r with
     | Ok doses => trace_ok now today ps acc w extra doses
     | Throw _ => exists p, In p ps /\ P p = Invalid
     end.

(** The loops leave the component state and the console alone. *)
Definition same_view (w w' : World) : Prop :=
  state w' = state w /\ console w' = console w.

(** A list of times in ascending order. *)
Inductive ascending : list Z -> Prop :=
| ascending_nil : ascending []
| ascending_cons x l :
    (forall y, In y l -> x <= y) -> ascending l -> ascending (x :: l).



(** Whether the figure the code reports for [K] taken out of [N] is the
    one the specification names. *)
Definition Number_eqb (x y : Number) : bool :=
  match x, y with
  | S754_zero a, S754_zero b => Bool.eqb a b
  | S754_infinity a, S754_infinity b => Bool.eqb a b
  | S754_nan, S754_nan => true
  | S754_finite a m e, S754_finite b m' e' =>
      Bool.eqb a b && Pos.eqb m m' && Z.eqb e e'
  | _, _ => false
  end.

Definition agrees (N K : nat) : bool :=
  Number_eqb (CaregiverDashboard.compliance (Z.of_nat N) (Z.of_nat K))
             (Number_of_Z (spec_compliance (Z.of_nat N) (Z.of_nat K))).

(** ** Sample data: one patient, one medication, a dose at 08:00 on
       weekdays; the clock readings are those of Monday 20 October 2025,
       UTC. *)

Module Sample.
(** Universal time all year round. *)
Definition utc : Zone := fun _ _ => 0.

Definition aspirin : Medication.t :=
  Medication.mk "m1" "p1" "Aspirin" "100 mg" "" true 10.
Definition morning : Schedule.t :=
  Schedule.mk "s1" "m1" "08:00:00" [1; 2; 3; 4; 5] true.
Definition weekend : Schedule.t :=
  Schedule.mk "s2" "m1" "08:00:00" [0; 6] true.

Definition uuids (n : nat) : uuid :=
  String.append "log-" (PatientDashboard.string_of_Z (Z.of_nat n)).

Definition database (rows : list DoseLog.t) : Db.t :=
  Db.mk [aspirin] [morning; weekend] rows [] uuids (List.length rows)
        (fun _ => None) 0.

Definition world (rows : list DoseLog.t) : World :=
  {| LocalTZA := utc;
     db := database rows;
     state := {| medications := []; upcomingDoses := []; loading := true |};
     console := [] |}.

Definition at_0500 : Z := 1760936400000.
Definition at_0700 : Z := 1760943600000.
Definition at_0730 : Z := 1760945400000.
Definition at_0735 : Z := 1760945700000.
Definition at_0736 : Z := 1760945760000.
Definition at_0800 : Z := 1760947200000.

Definition row (id : uuid) (st : Status) (taken_at : option Z) : DoseLog.t :=
  DoseLog.mk id "s1" at_0800 taken_at st "".

(** The 08:00 occurrence as the list shows it after a load at 07:30. *)
Definition shown_pending : UpcomingDose.t :=
  PatientDashboard.mkDose
    {| med := aspirin; med_schedules := [morning; weekend] |}
    morning at_0800 (Some (row "log-0" pending None)).

Definition unbacked : UpcomingDose.t :=
  PatientDashboard.mkDose
    {| med := aspirin; med_schedules := [morning; weekend] |}
    morning at_0800 None.




(** A day with forty dose logs, twenty-three of them taken, and a
    caregiver connected to the patient. *)
Definition busy_day : Db.t :=
  Db.mk [aspirin] [morning; weekend]
        (repeat (row "t" taken (Some at_0800)) 23
         ++ repeat (row "p" pending None) 17)
        [CaregiverConnection.mk "c1" "p1" "g1" "daughter" true]
        uuids 40 (fun _ => None) 0.

Definition cabinet : list MedicationWithSchedule :=
  [{| med := aspirin; med_schedules := [morning; weekend] |}].

(** The names on the list a world shows. *)
Definition names (w : World) : list string :=
  map (fun d => Medication.name (med (UpcomingDose.medication d)))
      (upcomingDoses (state w)).
End Sample.

(** Eastern time in 2026: five hours behind UTC, four from 8 March
    07:00 UTC, when local clocks go from 02:00 to 03:00, until 1 November
    06:00 UTC, when they go from 02:00 back to 01:00. *)
Module NewYork.
Definition est : Z := -5 * msPerHour.
Definition edt : Z := -4 * msPerHour.
Definition spring_forward : Z := 1772953200000.
Definition fall_back : Z := 1793512800000.

Definition zone : Zone :=
  fun t isUTC =>
    if isUTC
    then if (spring_forward <=? t) && (t <? fall_back) then edt else est
    else if (spring_forward + edt <=? t) && (t <? fall_back + edt)
         then edt else est.

(** Sunday 8 March 2026, 01:30 Eastern (06:30 UTC), and a dose due on
    Sundays at 03:15. *)
Definition at_0130 : Z := 1772951400000.
Definition at_0315 : Z := 1772954100000.

Definition night : Schedule.t :=
  Schedule.mk "s4" "m1" "03:15:00" [0] true.

Definition world : World :=
  {| LocalTZA := zone;
     db := Db.mk [Sample.aspirin] [night] [] [] Sample.uuids 0
                 (fun _ => None) 0;
     state := {| medications := []; upcomingDoses := []; loading := true |};
     console := [] |}.

(** The same night an hour earlier, 00:30 Eastern (05:30 UTC). *)
Definition at_0030 : Z := 1772947800000.

Definition cabinet : list MedicationWithSchedule :=
  [{| med := Sample.aspirin; med_schedules := [night] |}].

(** Sunday 1 November 2026, noon Eastern (17:00 UTC), and the local
    midnight of that day (04:00 UTC). *)
Definition at_noon : Z := 1793552400000.
Definition midnight : Z := 1793505600000.
End NewYork.

(** * The rest of the two components *)

(** ** Notions for the further facts *)

(** Two decimal digits, as the database writes the fields of a [time]. *)
Definition digit (k : Z) : ascii := ascii_of_N (Z.to_N (48 + k)).

Definition pad2 (n : Z) : string :=
  String (digit (n / 10)) (String (digit (n mod 10)) EmptyString).

(** A schedule due today whose turn raises: its time does not yield a
    valid date, or the end of the window is no valid date. *)
Definition unreadable (tz : Zone) (now : Z) (s : Schedule.t) : Prop :=
  includes (Schedule.days_of_week s) (getDay tz now) = true
  /\ forall t, PatientDashboard.scheduledTimeOf tz now s = Some t ->
                TimeClip (t + 60000) = None.

(** An entry of the list whose dose log is a stored row of its schedule,
    scheduled within the minute that starts at the entry's time. *)
Definition backed (w : World) (d : UpcomingDose.t) : Prop :=
  exists l, UpcomingDose.doseLog d = Some l
            /\ In l (logs w)
            /\ DoseLog.schedule_id l = Schedule.id (UpcomingDose.schedule d)
            /\ UpcomingDose.scheduledTime d <= DoseLog.scheduled_time l
               < UpcomingDose.scheduledTime d + 60000.

(** The line [loadData] writes when a date is invalid. *)
Definition load_error_line : string :=
  "Error loading data: RangeError: Invalid time value".

(** The world once the medications query has been sent. *)
Definition queried (w : World) : World :=
  {| LocalTZA := LocalTZA w; db := Db.asked (db w);
     state := state w; console := console w |}.

(** A zone whose offsets stay within a day of UTC. *)
Definition within_a_day (tz : Zone) : Prop :=
  forall t isUTC, Z.abs (tz t isUTC) <= msPerDay.

(** The local time that [setHours(h, m, 0, 0)] aims at: today's local
    date at [h]:[m]. *)
Definition wall_clock (tz : Zone) (now h m : Z) : Z :=
  MakeDate (Day (LocalTime tz now)) (MakeTime h m 0 0).

(** An entry of the list with no dose log. *)
Definition without_log (d : UpcomingDose.t) : Prop :=
  UpcomingDose.doseLog d = None.

(** ** AddMedicationModal: the day buttons *)

Module AddMedicationModal.

(** [useState([0, 1, 2, 3, 4, 5, 6])] *)
Definition initialDays : list Z := [0; 1; 2; 3; 4; 5; 6].

(** [prev.includes(day) ? prev.filter(d => d !== day) : [...prev, day]] *)
Definition toggleDay (day : Z) (prev : list Z) : list Z :=
  if includes prev day
  then filter (fun d => negb (d =? day)) prev
  else prev ++ [day].

(** The selection after the day buttons [days] are pressed in turn. *)
Definition press (days : list Z) (selected : list Z) : list Z :=
  fold_left (fun sel day => toggleDay day sel) days selected.

(** [from('medications').insert({ patient_id, name, dosage, instructions,
      active: true }).select().single()]; the identifier is drawn and
    [created_at] is the database's clock. *)
Definition insert_medication (patient_id : uuid)
           (name dosage instructions : string) (created_at : Z)
  : Async Medication.t :=
  fun w =>
    let d := db w in
    let row :=
      {| Medication.id := Db.gen_random_uuid d (Db.uuid_calls d);
         Medication.patient_id := patient_id;
         Medication.name := name;
         Medication.dosage := dosage;
         Medication.instructions := instructions;
         Medication.active := true;
         Medication.created_at := created_at |} in
    ({| LocalTZA := LocalTZA w;
        db := {| Db.medications := Db.medications d ++ [row];
                 Db.schedules := Db.schedules d;
                 Db.dose_logs := Db.dose_logs d;
                 Db.caregiver_connections := Db.caregiver_connections d;
                 Db.gen_random_uuid := Db.gen_random_uuid d;
                 Db.uuid_calls := S (Db.uuid_calls d);
                 Db.refuses := Db.refuses d;
                 Db.requests := Db.requests d |};
        state := state w; console := console w |}, Ok row).

Definition medication_exists (d : Db.t) (medication_id : uuid) : bool :=
  existsb (fun m => String.eqb (Medication.id m) medication_id)
          (Db.medications d).

(** [from('schedules').insert({ medication_id, time, days_of_week,
      active: true })]. [time] is the text as the column holds it once
    the database has read it, [None] when the database refuses the text;
    the row is also refused when [medication_id] references no
    medication. A refusal is the [scheduleError] the code throws. *)
Definition insert_schedule (medication_id : uuid) (time : option string)
           (days_of_week : list Z) : Async unit :=
  fun w =>
    let d := db w in
    match time with
    | None => (w, Throw "invalid input syntax for type time")
    | Some t =>
        if medication_exists d medication_id then
          let row :=
            {| Schedule.id := Db.gen_random_uuid d (Db.uuid_calls d);
               Schedule.medication_id := medication_id;
               Schedule.time := t;
               Schedule.days_of_week := days_of_week;
               Schedule.active := true |} in
          ({| LocalTZA := LocalTZA w;
              db := {| Db.medications := Db.medications d;
                       Db.schedules := Db.schedules d ++ [row];
                       Db.dose_logs := Db.dose_logs d;
                       Db.caregiver_connections := Db.caregiver_connections d;
                       Db.gen_random_uuid := Db.gen_random_uuid d;
                       Db.uuid_calls := S (Db.uuid_calls d);
                       Db.refuses := Db.refuses d;
                       Db.requests := Db.requests d |};
              state := state w; console := console w |}, Ok tt)
        else (w, Throw "violates foreign key constraint")
    end.

(** [handleSubmit] of the form. [user] is the signed-in user, [read_time]
    the database's reading of a time text, [created_at] its clock, and
    [now] the browser's clock when [onSuccess], the dashboard's
    [loadData], runs. The form's own busy flag and its closing are
    outside [World]. *)
Definition handleSubmit (user : option uuid)
           (name dosage instructions time : string) (selectedDays : list Z)
           (read_time : string -> option string) (created_at now : Z)
  : Async unit :=
  match user with
  | None => ret tt
  | Some user_id =>
      try_catch
        (medication <- insert_medication user_id name dosage instructions
                                         created_at ;;
         insert_schedule (Medication.id medication) (read_time time)
                         selectedDays ;;;
         PatientDashboard.loadData now)
        (fun e => console_error "Error adding medication:" e)
  end.

End AddMedicationModal.

(** ** The weekly outlook *)

Module WeeklyOverview.

(** [Record<number, number>]: [None] where the object has no such key. *)
Definition Counts : Type := Z -> option Z.

(** [{ 0: 0, 1: 0, 2: 0, 3: 0, 4: 0, 5: 0, 6: 0 }] *)
Definition zeroes : Counts :=
  fun k => if (0 <=? k) && (k <=? 6) then Some 0 else None.

(** [counts[day] = (counts[day] || 0) + 1] *)
Definition bump (counts : Counts) (day : Z) : Counts :=
  fun k =>
    if k =? day
    then Some (match counts day with Some n => n | None => 0 end + 1)
    else counts k.

(** The memoised [weeklyMedicationCounts], from the component's
    medication list. *)
Definition weeklyMedicationCounts (meds : list MedicationWithSchedule)
  : Counts :=
  fold_left
    (fun counts m =>
       fold_left
         (fun counts schedule =>
            fold_left bump (Schedule.days_of_week schedule) counts)
         (filter Schedule.active (med_schedules m)) counts)
    meds zeroes.

(** [counts[index] ?? 0], the figure a day's tile shows. *)
Definition count (counts : Counts) (index : Z) : Z :=
  match counts index with
  | Some n => n
  | None => 0
  end.

End WeeklyOverview.

(** The days on which the active schedules of [meds] apply, with
    repetitions. *)
Definition scheduled_days (meds : list MedicationWithSchedule) : list Z :=
  flat_map (fun p => Schedule.days_of_week (snd p)) (pairs meds).

(** A visited schedule that applies on the day [today]. *)
Definition due (today : Z) (p : MedicationWithSchedule * Schedule.t) : bool :=
  includes (Schedule.days_of_week (snd p)) today.

(** ** The caregiver list of the patient *)

Module CaregiversPanel.

(** What [handleToggleCaregiverNotifications] does to the tables: with
    no signed-in profile nothing; otherwise
    [update({ notify_missed_doses: !currentValue }).eq('id', connectionId)].
    The flags and the list the handler sets besides are component state,
    not part of the tables. *)
Definition handleToggleCaregiverNotifications (profile : option uuid)
           (connectionId : uuid) (currentValue : bool) (d : Db.t) : Db.t :=
  match profile with
  | None => d
  | Some _ =>
      {| Db.medications := Db.medications d;
         Db.schedules := Db.schedules d;
         Db.dose_logs := Db.dose_logs d;
         Db.caregiver_connections :=
           map (fun c =>
                  if String.eqb (CaregiverConnection.id c) connectionId
                  then {| CaregiverConnection.id := CaregiverConnection.id c;
                          CaregiverConnection.patient_id :=
                            CaregiverConnection.patient_id c;
                          CaregiverConnection.caregiver_id :=
                            CaregiverConnection.caregiver_id c;
                          CaregiverConnection.relationship :=
                            CaregiverConnection.relationship c;
                          CaregiverConnection.notify_missed_doses :=
                            negb currentValue |}
                  else c)
               (Db.caregiver_connections d);
         Db.gen_random_uuid := Db.gen_random_uuid d;
         Db.uuid_calls := Db.uuid_calls d;
         Db.refuses := Db.refuses d;
         Db.requests := Db.requests d |}
  end.

(** What [handleRemoveCaregiver] does to the tables: with no signed-in
    profile nothing; otherwise [delete().eq('id', connectionId)]. *)
Definition handleRemoveCaregiver (profile : option uuid)
           (connectionId : uuid) (d : Db.t) : Db.t :=
  match profile with
  | None => d
  | Some _ =>
      {| Db.medications := Db.medications d;
         Db.schedules := Db.schedules d;
         Db.dose_logs := Db.dose_logs d;
         Db.caregiver_connections :=
           filter (fun c => negb (String.eqb (CaregiverConnection.id c)
                                             connectionId))
                  (Db.caregiver_connections d);
         Db.gen_random_uuid := Db.gen_random_uuid d;
         Db.uuid_calls := Db.uuid_calls d;
         Db.refuses := Db.refuses d;
         Db.requests := Db.requests d |}
  end.

End CaregiversPanel.

(** ** The caregiver's alerts *)

Module Alert.
Record t := mk {
  id : uuid;
  dose_log_id : uuid;
  caregiver_id : uuid;
  type : string;          (* 'missed_dose' or 'reminder' *)
  sent_at : Z;
  read_at : option Z
}.
End Alert.

Module CaregiverAlerts.

(** The inner joins of the alert query: the alert's dose log is a row of
    [dose_logs] whose schedule is a row of [schedules]. *)
Definition joined (d : Db.t) (a : Alert.t) : bool :=
  existsb
    (fun l => String.eqb (DoseLog.id l) (Alert.dose_log_id a)
              && schedule_exists d (DoseLog.schedule_id l))
    (Db.dose_logs d).

Definition unread_for (d : Db.t) (caregiver : uuid) (a : Alert.t) : bool :=
  String.eqb (Alert.caregiver_id a) caregiver
  && match Alert.read_at a with None => true | Some _ => false end
  && joined d a.

(** [from('alerts').select(alert, dose log, schedule, medication)
      .eq('caregiver_id', id).is('read_at', null)
      .order('sent_at', { ascending: false }).limit(10)] *)
Definition alertsData (d : Db.t) (alerts : list Alert.t) (caregiver : uuid)
  : list Alert.t :=
  firstn 10
    (sort (fun a b => Alert.sent_at b - Alert.sent_at a)
          (filter (unread_for d caregiver) alerts)).

(** The write of [markAlertRead]:
    [update({ read_at: now }).eq('id', alertId)]. *)
Definition markAlertRead (alertId : uuid) (now : Z) (alerts : list Alert.t)
  : list Alert.t :=
  map (fun a =>
         if String.eqb (Alert.id a) alertId
         then {| Alert.id := Alert.id a;
                 Alert.dose_log_id := Alert.dose_log_id a;
                 Alert.caregiver_id := Alert.caregiver_id a;
                 Alert.type := Alert.type a;
                 Alert.sent_at := Alert.sent_at a;
                 Alert.read_at := Some now |}
         else a)
      alerts.

End CaregiverAlerts.

(** The database with other rows in [dose_logs]. *)
Definition with_dose_logs (d : Db.t) (rows : list DoseLog.t) : Db.t :=
  {| Db.medications := Db.medications d;
     Db.schedules := Db.schedules d;
     Db.dose_logs := rows;
     Db.caregiver_connections := Db.caregiver_connections d;
     Db.gen_random_uuid := Db.gen_random_uuid d;
     Db.uuid_calls := Db.uuid_calls d;
     Db.refuses := Db.refuses d;
     Db.requests := Db.requests d |}.

Definition is_taken (l : DoseLog.t) : bool :=
  Status_eqb (DoseLog.status l) taken.

(** Alerts in the order newest first. *)
Definition newest_first (l : list Alert.t) : Prop :=
  ascending (map (fun a => - Alert.sent_at a) l).

(** ** More sample data *)

Module Sample2.
(** A schedule whose time is no time. *)
Definition garbled : Schedule.t :=
  Schedule.mk "s3" "m1" "8am" [0; 1; 2; 3; 4; 5; 6] true.

Definition garbled_world : World :=
  {| LocalTZA := Sample.utc;
     db := Db.mk [Sample.aspirin] [Sample.morning; garbled] [] []
                 Sample.uuids 0 (fun _ => None) 0;
     state := {| medications := []; upcomingDoses := []; loading := true |};
     console := [] |}.

Definition garbled_entry : MedicationWithSchedule * Schedule.t :=
  ({| med := Sample.aspirin; med_schedules := [Sample.morning; garbled] |},
   garbled).

Definition connection : CaregiverConnection.t :=
  CaregiverConnection.mk "c1" "p1" "g1" "daughter" true.

Definition alerts : list Alert.t :=
  [Alert.mk "a1" "t" "g1" "missed_dose" 10 None;
   Alert.mk "a2" "t" "g1" "missed_dose" 20 None].

(** The time the database makes of the text of a time input. *)
Definition with_seconds (text : string) : option string :=
  Some (String.append text ":00").

Definition refuse (text : string) : option string := None.

(** The sample world with a service that refuses every request, and
    with one that refuses the second request only. *)
Definition with_service (refuses : nat -> option string) : World :=
  {| LocalTZA := Sample.utc;
     db := Db.mk [Sample.aspirin] [Sample.morning; Sample.weekend] [] []
                 Sample.uuids 0 refuses 0;
     state := {| medications := []; upcomingDoses := []; loading := true |};
     console := [] |}.

Definition offline : World :=
  with_service (fun _ => Some "TypeError: Failed to fetch").

Definition flaky : World :=
  with_service (fun n => match n with
                         | 1%nat => Some "TypeError: Failed to fetch"
                         | _ => None
                         end).

(** Seven medications taken daily, one at each hour from 01:00 to
    07:00, and Monday 06:30. *)
Definition at_hour (n time : string) : MedicationWithSchedule :=
  {| med := Medication.mk (String.append "m-" n) "p1" n "1 pill" "" true 10;
     med_schedules :=
       [Schedule.mk (String.append "s-" n) (String.append "m-" n)
                    time [0; 1; 2; 3; 4; 5; 6] true] |}.

Definition seven : list MedicationWithSchedule :=
  [at_hour "A" "01:00:00"; at_hour "B" "02:00:00"; at_hour "C" "03:00:00";
   at_hour "D" "04:00:00"; at_hour "E" "05:00:00"; at_hour "F" "06:00:00";
   at_hour "G" "07:00:00"].

Definition seven_world : World :=
  {| LocalTZA := Sample.utc;
     db := Db.mk (map med seven) (flat_map med_schedules seven) [] []
                 Sample.uuids 0 (fun _ => None) 0;
     state := {| medications := []; upcomingDoses := []; loading := true |};
     console := [] |}.

Definition at_0630 : Z := 1760941800000.
End Sample2.

(** * Facts *)

(** ** The frame of a materialization pass *)

Section Preserves.
Variable R : World -> World -> Prop.
Hypothesis R_refl : forall w, R w w.
Hypothesis R_trans : forall a b c, R a b -> R b c -> R a c.

Lemma preserves_ret {A} (a : A) : preserves R (ret a).
Proof. intro w. apply R_refl. Qed.

Lemma preserves_throw {A} (e : string) : preserves R (@throw A e).
Proof. intro w. apply R_refl. Qed.

Lemma preserves_bind {A B} (m : Async A) (k : A -> Async B) :
  preserves R m -> (forall a, preserves R (k a)) -> preserves R (bind m k).
Proof.
  intros Hm Hk w. unfold bind. specialize (Hm w).
  destruct (m w) as [w1 [a | e]]; simpl in *.
  - eapply R_trans; [exact Hm | apply Hk].
  - exact Hm.
Qed.

Lemma preserves_try_catch {A} (m : Async A) (h : string -> Async A) :
  preserves R m -> (forall e, preserves R (h e)) ->
  preserves R (try_catch m h).
Proof.
  intros Hm Hh w. unfold try_catch. specialize (Hm w).
  destruct (m w) as [w1 [a | e]]; simpl in *.
  - exact Hm.
  - eapply R_trans; [exact Hm | apply Hh].
Qed.

Lemma preserves_finally {A} (m : Async A) (f : Async unit) :
  preserves R m -> preserves R f -> preserves R (finally m f).
Proof.
  intros Hm Hf w. unfold finally. specialize (Hm w).
  destruct (m w) as [w1 r]; simpl in *. specialize (Hf w1).
  destruct (f w1) as [w2 [u | e]]; simpl in *;
    eapply R_trans; eauto.
Qed.

Lemma preserves_forEach {A S} (l : list A) (body : A -> S -> Async S) :
  (forall x acc, In x l -> preserves R (body x acc)) ->
  forall acc, preserves R (forEach l body acc).
Proof.
  induction l as [| x r IH]; intros Hb acc; simpl.
  - apply preserves_ret.
  - apply preserves_bind.
    + apply Hb. now left.
    + intro acc'. apply IH. intros y a Hy. apply Hb. now right.
Qed.
End Preserves.

Lemma only_creates_refl w : only_creates w w.
Proof.
  unfold only_creates. repeat split; trivial.
  exists []. split; [now rewrite app_nil_r | constructor].
Qed.

Lemma only_creates_trans a b c :
  only_creates a b -> only_creates b c -> only_creates a c.
Proof.
  intros (T1 & M1 & S1 & C1 & G1 & R1 & e1 & L1 & F1)
         (T2 & M2 & S2 & C2 & G2 & R2 & e2 & L2 & F2).
  unfold only_creates. repeat split; try congruence.
  exists (e1 ++ e2). split.
  - rewrite L2, L1. now rewrite app_assoc.
  - apply Forall_app. now split.
Qed.

Ltac same_database :=
  unfold only_creates, logs; simpl; repeat split; trivial;
  exists []; split; [now rewrite app_nil_r | constructor].

Lemma modify_state_only_creates f : preserves only_creates (modify_state f).
Proof. intro w. same_database. Qed.

Lemma console_error_only_creates msg e :
  preserves only_creates (console_error msg e).
Proof. intro w. same_database. Qed.

Lemma inserted_is_new d sid t row :
  inserted d sid t = Some row -> row = new_dose_log d sid t.
Proof.
  unfold inserted. destruct (Db.refuses d (Db.requests d)); [discriminate |].
  destruct (schedule_exists d sid); congruence.
Qed.

Lemma insert_dose_log_only_creates sid t :
  preserves only_creates (insert_dose_log sid t).
Proof.
  intro w. unfold insert_dose_log.
  destruct (inserted (db w) sid t) as [row |] eqn:E; simpl.
  - apply inserted_is_new in E. subst row.
    unfold only_creates, logs; simpl. repeat split; trivial.
    eexists. split; [reflexivity |].
    constructor; [now split | constructor].
  - same_database.
Qed.

Lemma select_active_medications_only_creates :
  preserves only_creates select_active_medications.
Proof. intro w. same_database. Qed.

Lemma toISOString_only_creates d : preserves only_creates (toISOString d).
Proof. intro w. destruct d; apply only_creates_refl. Qed.

Lemma occurrence_only_creates now today m s doses :
  preserves only_creates (PatientDashboard.occurrence now today m s doses).
Proof.
  unfold PatientDashboard.occurrence.
  destruct (negb _).
  { apply preserves_ret, only_creates_refl. }
  apply preserves_bind; try exact only_creates_trans.
  { intro w. apply only_creates_refl. }
  intro tz.
  apply preserves_bind; try exact only_creates_trans.
  { apply toISOString_only_creates. }
  intro lo.
  apply preserves_bind; try exact only_creates_trans.
  { apply toISOString_only_creates. }
  intro hi.
  apply preserves_bind; try exact only_creates_trans.
  { intro w. apply only_creates_refl. }
  intros [log |].
  - apply preserves_ret, only_creates_refl.
  - destruct (lo - now <? 3600000).
    + apply preserves_bind; try exact only_creates_trans.
      * apply insert_dose_log_only_creates.
      * intro. apply preserves_ret, only_creates_refl.
    + apply preserves_ret, only_creates_refl.
Qed.

Lemma generateUpcomingDoses_only_creates now meds :
  preserves only_creates (PatientDashboard.generateUpcomingDoses now meds).
Proof.
  unfold PatientDashboard.generateUpcomingDoses.
  apply preserves_bind; try exact only_creates_trans.
  { intro w. apply only_creates_refl. }
  intro tz.
  apply preserves_bind; try exact only_creates_trans.
  - apply preserves_forEach;
      [exact only_creates_refl | exact only_creates_trans |].
    intros m acc _.
    apply preserves_forEach;
      [exact only_creates_refl | exact only_creates_trans |].
    intros s acc' _. apply occurrence_only_creates.
  - intro doses. apply modify_state_only_creates.
Qed.

Lemma loadData_only_creates now :
  preserves only_creates (PatientDashboard.loadData now).
Proof.
  unfold PatientDashboard.loadData.
  apply preserves_finally;
    [exact only_creates_trans | | apply modify_state_only_creates].
  apply preserves_try_catch; try exact only_creates_trans.
  - apply preserves_bind; try exact only_creates_trans.
    { apply select_active_medications_only_creates. }
    intros [meds | medsError].
    + apply preserves_bind; try exact only_creates_trans.
      { apply modify_state_only_creates. }
      intros _. apply generateUpcomingDoses_only_creates.
    + apply preserves_throw, only_creates_refl.
  - intro e. apply console_error_only_creates.
Qed.

(** C8. A materialization pass, whether [generateUpcomingDoses] on any
    list of medications or the whole [loadData], leaves the medications,
    the schedules and the connections as they were and changes
    [dose_logs] only by appending rows, each pending and without a taken
    timestamp: every row that was there is still there, unchanged, at its
    place. *)
Theorem materialization_only_creates_rows :
  forall now meds w,
    only_creates w (fst (PatientDashboard.generateUpcomingDoses now meds w))
    /\ only_creates w (fst (PatientDashboard.loadData now w)).
Proof.
  intros now meds w. split.
  - apply generateUpcomingDoses_only_creates.
  - apply loadData_only_creates.
Qed.

(** ** The two buttons *)

Lemma update_then_reload_only_creates id f later h w :
  (forall e, preserves only_creates (h e)) ->
  only_creates
    (fst (update_dose_logs id f w))
    (fst (try_catch (update_dose_logs id f ;;; PatientDashboard.loadData later)
                    h w)).
Proof.
  intro Hh. unfold try_catch, bind.
  destruct (update_dose_logs id f w) as [w1 r] eqn:E1.
  unfold update_dose_logs, modify_db in E1. inversion E1; subst; clear E1.
  simpl.
  match goal with |- context [PatientDashboard.loadData later ?x] =>
    set (w1 := x) end.
  pose proof (loadData_only_creates later w1) as HL.
  destruct (PatientDashboard.loadData later w1) as [w2 [u | e]]; simpl in *.
  - exact HL.
  - eapply only_creates_trans; [exact HL | apply Hh].
Qed.

Lemma nth_error_only_creates w w' i l :
  only_creates w w' ->
  nth_error (logs w) i = Some l -> nth_error (logs w') i = Some l.
Proof.
  intros (_ & _ & _ & _ & _ & _ & extra & L & _) H. rewrite L.
  rewrite nth_error_app1; [exact H |].
  apply nth_error_Some. congruence.
Qed.

Lemma nth_error_update id f w i l :
  nth_error (logs w) i = Some l ->
  nth_error (logs (fst (update_dose_logs id f w))) i
  = Some (if String.eqb (DoseLog.id l) id then f l else l).
Proof.
  intro H. unfold update_dose_logs, modify_db, logs; simpl.
  rewrite nth_error_map. unfold logs in H. now rewrite H.
Qed.

(** C9. Pressing either button on an occurrence that carries no dose log
    returns at once: the world (database, component state and console) is
    the one before, so no write was issued. *)
Theorem mark_without_log_changes_nothing :
  forall dose now later w,
    UpcomingDose.doseLog dose = None ->
    PatientDashboard.markDoseTaken dose now later w = (w, Ok tt)
    /\ PatientDashboard.markDoseSkipped dose later w = (w, Ok tt).
Proof.
  intros dose now later w H.
  unfold PatientDashboard.markDoseTaken, PatientDashboard.markDoseSkipped.
  rewrite H. split; reflexivity.
Qed.

Lemma mark_without_log_changes_nothing_witness :
  UpcomingDose.doseLog Sample.unbacked = None
  /\ PatientDashboard.markDoseTaken Sample.unbacked Sample.at_0735
       Sample.at_0736 (Sample.world [])
     = (Sample.world [], Ok tt)
  /\ PatientDashboard.markDoseSkipped Sample.unbacked Sample.at_0736
       (Sample.world [])
     = (Sample.world [], Ok tt).
Proof.
  split; [reflexivity |].
  apply (mark_without_log_changes_nothing Sample.unbacked Sample.at_0735
           Sample.at_0736 (Sample.world [])).
  reflexivity.
Defined.

(** C7. Marking an occurrence taken at time [now] turns the stored row
    its dose log names into a row with status [taken] and taken timestamp
    [now], everything else in it as before; the row keeps its place, also
    after the reload that follows. This holds in particular for a pending
    occurrence. *)
Theorem markDoseTaken_records_action_time :
  forall dose log now later w i l,
    UpcomingDose.doseLog dose = Some log ->
    nth_error (logs w) i = Some l ->
    DoseLog.id l = DoseLog.id log ->
    let w' := fst (PatientDashboard.markDoseTaken dose now later w) in
    nth_error (logs w') i = Some (mark_taken now l)
    /\ DoseLog.status (mark_taken now l) = taken
    /\ DoseLog.taken_at (mark_taken now l) = Some now.
Proof.
  intros dose log now later w i l Hd Hn Hid w'.
  split; [| split; reflexivity].
  subst w'. unfold PatientDashboard.markDoseTaken. rewrite Hd.
  eapply nth_error_only_creates.
  - apply update_then_reload_only_creates.
    intro e. apply console_error_only_creates.
  - rewrite (nth_error_update _ _ _ _ _ Hn).
    rewrite <- Hid, String.eqb_refl. reflexivity.
Qed.

Lemma markDoseTaken_records_action_time_witness :
  nth_error
    (logs (fst (PatientDashboard.markDoseTaken Sample.shown_pending
                  Sample.at_0735 Sample.at_0736
                  (Sample.world [Sample.row "log-0" pending None]))))
    0
  = Some (Sample.row "log-0" taken (Some Sample.at_0735)).
Proof.
  apply (markDoseTaken_records_action_time Sample.shown_pending
           (Sample.row "log-0" pending None) Sample.at_0735 Sample.at_0736
           (Sample.world [Sample.row "log-0" pending None]) 0%nat
           (Sample.row "log-0" pending None));
    reflexivity.
Defined.

(** C3 at an input where the claim and the code part ways. The list
    loaded at 07:30 shows the 08:00 dose as pending, with its two
    buttons; the dose is then marked taken at 07:35 (in another tab, or
    by the first of two quick clicks). A list loaded after that shows the
    entry as taken and draws no button for it: this guard of the
    rendering is all the code has to keep a terminal state final. On the
    list still on screen the Skip button is pressed at 07:36: the handler
    does not look at the stored status; the stored row, which was
    [taken], now reads [skipped] with its taken timestamp kept, the
    handler returns normally and nothing is written to the console. *)
Theorem taken_row_overwritten_by_skip :
  let stored := Sample.row "log-0" taken (Some Sample.at_0735) in
  let w := Sample.world [stored] in
  let r := PatientDashboard.markDoseSkipped Sample.shown_pending
             Sample.at_0736 w in
  PatientDashboard.buttonsShown Sample.shown_pending = true
  /\ map PatientDashboard.buttonsShown
         (upcomingDoses
            (state (fst (PatientDashboard.loadData Sample.at_0736 w))))
     = [false]
  /\ logs w = [stored]
  /\ logs (fst r) = [Sample.row "log-0" skipped (Some Sample.at_0735)]
  /\ snd r = Ok tt
  /\ console (fst r) = [].
Proof. vm_compute. repeat split. Qed.

(** ** One turn of the loop, and the loops flattened *)

Lemma occurrence_plan now today m s doses w :
  PatientDashboard.occurrence now today m s doses w
  = match plan (LocalTZA w) now today (logs w) s with
    | Skip => (w, Ok doses)
    | Invalid => (w, Throw "RangeError: Invalid time value")
    | Existing t l =>
        (w, Ok (doses ++ [PatientDashboard.mkDose m s t (Some l)]))
    | Create t =>
        (fst (insert_dose_log (Schedule.id s) t w),
         Ok (doses ++ [PatientDashboard.mkDose m s t
                         (inserted (db w) (Schedule.id s) t)]))
    end.
Proof.
  unfold PatientDashboard.occurrence, plan.
  destruct (negb _); [reflexivity |].
  unfold bind, localZone.
  destruct (PatientDashboard.scheduledTimeOf _ now s) as [t |];
    [| reflexivity].
  simpl. unfold TimeClip.
  destruct (Z.abs (t + 60000) <=? 8640000000000000); [| reflexivity].
  simpl. unfold logs.
  destruct (maybeSingle _) as [l |]; [reflexivity |].
  destruct (t - now <? 3600000); [| reflexivity].
  unfold insert_dose_log.
  destruct (inserted (db w) (Schedule.id s) t); reflexivity.
Qed.

Lemma forEach_app {A S} (l1 l2 : list A) (body : A -> S -> Async S) acc w :
  forEach (l1 ++ l2) body acc w
  = bind (forEach l1 body acc) (fun acc' => forEach l2 body acc') w.
Proof.
  revert acc w. induction l1 as [| x r IH]; intros acc w; simpl.
  - reflexivity.
  - unfold bind. destruct (body x acc w) as [w1 [a | e]].
    + rewrite IH. reflexivity.
    + reflexivity.
Qed.

Lemma forEach_map {A B S} (f : A -> B) (l : list A) (body : B -> S -> Async S)
      acc w :
  forEach (map f l) body acc w = forEach l (fun x => body (f x)) acc w.
Proof.
  revert acc w. induction l as [| x r IH]; intros acc w; simpl.
  - reflexivity.
  - unfold bind. destruct (body (f x) acc w) as [w1 [a | e]].
    + apply IH.
    + reflexivity.
Qed.

Lemma nested_loops_flat now today meds acc w :
  forEach meds
    (fun m doses =>
       forEach (filter Schedule.active (med_schedules m))
               (PatientDashboard.occurrence now today m) doses)
    acc w
  = forEach (pairs meds) (visit now today) acc w.
Proof.
  revert acc w. induction meds as [| m r IH]; intros acc w.
  - reflexivity.
  - unfold pairs. simpl flat_map. rewrite forEach_app. simpl forEach.
    unfold bind. rewrite forEach_map. unfold visit at 1. simpl fst. simpl snd.
    destruct (forEach (filter Schedule.active (med_schedules m)) _ acc w)
      as [w1 [a | e]].
    + apply IH.
    + reflexivity.
Qed.

Lemma plan_app_other tz now today rows extra s :
  (forall l, In l extra -> DoseLog.schedule_id l <> Schedule.id s) ->
  plan tz now today (rows ++ extra) s = plan tz now today rows s.
Proof.
  intro H. unfold plan.
  destruct (negb _); [reflexivity |].
  destruct (PatientDashboard.scheduledTimeOf tz now s) as [t |];
    [| reflexivity].
  destruct (TimeClip (t + 60000)) as [hi |]; [| reflexivity].
  rewrite filter_app.
  replace (filter (in_window (Schedule.id s) t hi) extra) with (@nil DoseLog.t).
  - now rewrite app_nil_r.
  - symmetry. induction extra as [| l r IH]; [reflexivity |].
    simpl. unfold in_window at 1.
    destruct (String.eqb_spec (DoseLog.schedule_id l) (Schedule.id s)) as [E | E].
    + exfalso. apply (H l); [now left | exact E].
    + simpl. apply IH. intros l' Hl'. apply H. now right.
Qed.

Lemma logs_after_insert s t w :
  logs (fst (insert_dose_log s t w))
  = logs w ++ match inserted (db w) s t with
              | Some row => [row]
              | None => []
              end.
Proof.
  unfold insert_dose_log. destruct (inserted (db w) s t); simpl.
  - reflexivity.
  - unfold logs. simpl. now rewrite app_nil_r.
Qed.

Lemma created_app w w' extra :
  logs w' = logs w ++ extra -> created w w' = extra.
Proof.
  intro H. unfold created. rewrite H.
  rewrite skipn_app, skipn_all, Nat.sub_diag. reflexivity.
Qed.

Lemma flat_map_ext_In {A B} (f g : A -> list B) (l : list A) :
  (forall x, In x l -> f x = g x) -> flat_map f l = flat_map g l.
Proof.
  induction l as [| x r IH]; intro H; simpl.
  - reflexivity.
  - rewrite (H x (or_introl eq_refl)). f_equal.
    apply IH. intros y Hy. apply H. now right.
Qed.

(** ** What a pass does, read off the rows it starts from

    When no two visited schedules share an identifier, the turn taken for
    a schedule never sees a row another turn inserted, so the whole loop
    is described by [plan] on the initial rows. *)

Section Trace.
Variables now today : Z.

Lemma visit_only_creates p acc : preserves only_creates (visit now today p acc).
Proof. apply occurrence_only_creates. Qed.

Lemma loop_trace ps :
  NoDup (map sid ps) ->
  forall acc w,
  exists extra,
    trace now today ps acc w (forEach ps (visit now today) acc w) extra.
Proof.
  induction ps as [| p ps IH]; intros Hnd acc w.
  - exists []. unfold trace, trace_ok. simpl.
    repeat split; try (now rewrite app_nil_r); try contradiction.
    intros d Hd. now left.
  - inversion Hnd as [| ? ? Hnotin Hnd']; subst.
    specialize (IH Hnd').
    simpl forEach. unfold bind.
    pose proof (visit_only_creates p acc w) as Hframe.
    change (visit now today p acc w)
      with (PatientDashboard.occurrence now today (fst p) (snd p) acc w)
      in Hframe |- *.
    rewrite occurrence_plan in Hframe |- *.
    destruct (plan (LocalTZA w) now today (logs w) (snd p)) as
        [| | t l | t] eqn:Hp.
    + (* the head is skipped *)
      destruct (IH acc w) as (extra & HL & HE & HR).
      exists extra. unfold trace. split; [exact HL |]. split.
      * intros l Hl. destruct (HE l Hl) as (q & t & Hq & Hrest).
        exists q, t. split; [now right | exact Hrest].
      * destruct (snd (forEach ps (visit now today) acc w)) as [doses | e].
        -- destruct HR as (H1 & H3 & H4). unfold trace_ok.
           repeat split.
           ++ intros q [<- | Hq]; [congruence | now apply H1].
           ++ simpl. rewrite Hp. exact H3.
           ++ intros d Hd. destruct (H4 d Hd) as [Ha | (q & Hq & Hrest)];
                [now left | right]. exists q. split; [now right | exact Hrest].
        -- destruct HR as (q & Hq & Hi). exists q. split; [now right | exact Hi].
    + (* the head raises *)
      exists []. unfold trace. simpl. split; [now rewrite app_nil_r |].
      split; [contradiction |]. exists p. split; [now left | exact Hp].
    + (* the head finds its row *)
      destruct (IH (acc ++ [PatientDashboard.mkDose (fst p) (snd p) t (Some l)]) w)
        as (extra & HL & HE & HR).
      exists extra. unfold trace. split; [exact HL |]. split.
      * intros l' Hl'. destruct (HE l' Hl') as (q & t' & Hq & Hrest).
        exists q, t'. split; [now right | exact Hrest].
      * destruct (snd (forEach ps (visit now today) _ w)) as [doses | e].
        -- destruct HR as (H1 & H3 & H4). unfold trace_ok.
           repeat split.
           ++ intros q [<- | Hq]; [congruence | now apply H1].
           ++ simpl. rewrite Hp. rewrite H3, map_app, <- app_assoc.
              reflexivity.
           ++ intros d Hd. destruct (H4 d Hd) as [Ha | (q & Hq & Hrest)].
              ** apply in_app_or in Ha. destruct Ha as [Ha | [<- | []]];
                   [now left | right].
                 exists p. rewrite Hp. simpl. repeat split; auto.
              ** right. exists q. split; [now right | exact Hrest].
        -- destruct HR as (q & Hq & Hi). exists q. split; [now right | exact Hi].
    + (* the head asks for an insert *)
      simpl fst in *.
      set (w1 := fst (insert_dose_log (Schedule.id (snd p)) t w)) in *.
      set (row := match inserted (db w) (Schedule.id (snd p)) t with
                  | Some r => [r]
                  | None => []
                  end).
      assert (HL1 : logs w1 = logs w ++ row)
        by (apply logs_after_insert).
      assert (Hrow : forall l, In l row ->
                 DoseLog.schedule_id l = sid p /\ DoseLog.scheduled_time l = t).
      { intros l Hl. subst row.
        destruct (inserted (db w) (Schedule.id (snd p)) t) as [r |] eqn:E;
          [| contradiction].
        apply inserted_is_new in E. subst r.
        destruct Hl as [<- | []]. split; reflexivity. }
      assert (Hstable : forall q, In q ps ->
                 plan (LocalTZA w1) now today (logs w1) (snd q)
                 = plan (LocalTZA w) now today (logs w) (snd q)).
      { intros q Hq. destruct Hframe as (-> & _). rewrite HL1.
        apply plan_app_other. intros l Hl E.
        apply Hnotin. destruct (Hrow l Hl) as [E' _].
        rewrite <- E', E. change (In (sid q) (map sid ps)).
        now apply in_map. }
      match goal with |- context [forEach ps _ ?a w1] => set (acc1 := a) end.
      destruct (IH acc1 w1) as (extra & HL & HE & HR).
      exists (row ++ extra). unfold trace.
      split; [rewrite HL, HL1; now rewrite app_assoc |]. split.
      * intros l Hl. apply in_app_or in Hl. destruct Hl as [Hl | Hl].
        -- exists p, t. destruct (Hrow l Hl). repeat split; auto. now left.
        -- destruct (HE l Hl) as (q & t' & Hq & Hc & Hrest).
           exists q, t'. rewrite <- (Hstable q Hq).
           split; [now right | split; [exact Hc | exact Hrest]].
      * destruct (snd (forEach ps (visit now today) acc1 w1)) as [doses | e].
        -- destruct HR as (H1 & H3 & H4). unfold trace_ok.
           repeat split.
           ++ intros q [<- | Hq]; [congruence |].
              rewrite <- (Hstable q Hq). now apply H1.
           ++ simpl. rewrite Hp. rewrite H3. subst acc1.
              rewrite map_app, <- app_assoc. simpl. do 2 f_equal.
              apply flat_map_ext_In. intros q Hq. now rewrite Hstable.
           ++ intros d Hd. destruct (H4 d Hd) as [Ha | (q & Hq & Hrest)].
              ** subst acc1. apply in_app_or in Ha.
                 destruct Ha as [Ha | [<- | []]]; [now left | right].
                 exists p. rewrite Hp. simpl. repeat split; auto.
              ** right. exists q. rewrite <- (Hstable q Hq).
                 split; [now right | exact Hrest].
        -- destruct HR as (q & Hq & Hi). exists q.
           rewrite <- (Hstable q Hq). split; [now right | exact Hi].
Qed.
End Trace.

Lemma visit_same_view now today p acc :
  preserves same_view (visit now today p acc).
Proof.
  intro w. unfold visit. rewrite occurrence_plan.
  destruct (plan _ _ _ _ _); try (split; reflexivity).
  unfold insert_dose_log. simpl.
  destruct (inserted _ _ _); split; reflexivity.
Qed.

Lemma loop_same_view now today ps acc :
  preserves same_view (forEach ps (visit now today) acc).
Proof.
  apply preserves_forEach.
  - intro w. split; reflexivity.
  - intros a b c [H1 H2] [H3 H4]. split; congruence.
  - intros p a _. apply visit_same_view.
Qed.

(** ** Sorting *)

Lemma sort_insert_perm {A} (cmp : A -> A -> Z) x l :
  Permutation (sort_insert cmp x l) (x :: l).
Proof.
  induction l as [| y r IH]; simpl.
  - apply Permutation_refl.
  - destruct (cmp x y <=? 0).
    + apply Permutation_refl.
    + eapply Permutation_trans; [apply perm_skip, IH | apply perm_swap].
Qed.

Lemma sort_perm {A} (cmp : A -> A -> Z) l : Permutation (sort cmp l) l.
Proof.
  induction l as [| x r IH]; simpl.
  - apply Permutation_refl.
  - eapply Permutation_trans; [apply sort_insert_perm | now apply perm_skip].
Qed.



Lemma sort_insert_ascending x l :
  ascending l -> ascending (sort_insert Z.sub x l).
Proof.
  induction 1 as [| y r Hy Hr IH]; simpl.
  - constructor; [contradiction | constructor].
  - destruct (Z.leb_spec (x - y) 0).
    + constructor; [| now constructor].
      intros z [<- | Hz]; [lia |]. specialize (Hy z Hz). lia.
    + constructor; [| exact IH].
      intros z Hz.
      apply (Permutation_in _ (sort_insert_perm Z.sub x r)) in Hz.
      destruct Hz as [<- | Hz]; [lia | now apply Hy].
Qed.

Lemma sort_ascending l : ascending (sort Z.sub l).
Proof.
  induction l as [| x r IH]; simpl.
  - constructor.
  - now apply sort_insert_ascending.
Qed.

Lemma In_firstn {A} (x : A) n l : In x (firstn n l) -> In x l.
Proof.
  revert n. induction l as [| y r IH]; intros [| n]; simpl; try contradiction.
  intros [-> | H]; [now left | right; eauto].
Qed.

Lemma ascending_firstn n l : ascending l -> ascending (firstn n l).
Proof.
  intro H. revert n. induction H as [| x r Hx Hr IH]; intro n.
  - rewrite firstn_nil. constructor.
  - destruct n as [| n]; simpl; constructor.
    + intros y Hy. apply Hx. eapply In_firstn; eauto.
    + apply IH.
Qed.



(** ** A whole pass *)

Lemma generate_unfold now meds w :
  PatientDashboard.generateUpcomingDoses now meds w
  = match forEach (pairs meds) (visit now (getDay (LocalTZA w) now)) [] w
    with
    | (w', Ok doses) =>
        setUpcomingDoses (slice0 5 (sort PatientDashboard.by_time doses)) w'
    | (w', Throw e) => (w', Throw e)
    end.
Proof.
  unfold PatientDashboard.generateUpcomingDoses, bind, localZone.
  rewrite nested_loops_flat. reflexivity.
Qed.

Lemma generate_result now meds w :
  NoDup (map sid (pairs meds)) ->
  let today := getDay (LocalTZA w) now in
  let P := fun p => plan (LocalTZA w) now today (logs w) (snd p) in
  let r := PatientDashboard.generateUpcomingDoses now meds w in
  exists extra,
    logs (fst r) = logs w ++ extra
    /\ (forall l, In l extra ->
                  exists p t, In p (pairs meds) /\ P p = Create t
                              /\ DoseLog.schedule_id l = sid p
                              /\ DoseLog.scheduled_time l = t)
    /\ ((snd r = Ok tt
         /\ exists doses,
             trace_ok now today (pairs meds) [] w extra doses
             /\ upcomingDoses (state (fst r))
                = slice0 5 (sort PatientDashboard.by_time doses))
        \/ ((exists e, snd r = Throw e)
            /\ state (fst r) = state w
            /\ exists p, In p (pairs meds) /\ P p = Invalid)).
Proof.
  intros Hnd today P r. subst r. rewrite generate_unfold. fold today.
  destruct (loop_trace now today (pairs meds) Hnd [] w) as (extra & HL & HE & HR).
  pose proof (loop_same_view now today (pairs meds) [] w) as [HS _].
  destruct (forEach (pairs meds) (visit now today) [] w) as [w1 [doses | e]];
    simpl in *; exists extra.
  - split; [exact HL |]. split; [exact HE |]. left.
    split; [reflexivity |]. exists doses. split; [exact HR | reflexivity].
  - split; [exact HL |]. split; [exact HE |]. right.
    split; [now exists e |]. split; [exact HS | exact HR].
Qed.

Lemma NoDup_map_In_eq {A B} (f : A -> B) (l : list A) x y :
  NoDup (map f l) -> In x l -> In y l -> f x = f y -> x = y.
Proof.
  induction l as [| a r IH]; simpl; intros Hnd Hx Hy E; [contradiction |].
  inversion Hnd as [| ? ? Hn Hnd']; subst.
  destruct Hx as [-> | Hx], Hy as [-> | Hy]; auto.
  - exfalso. apply Hn. rewrite E. now apply in_map.
  - exfalso. apply Hn. rewrite <- E. now apply in_map.
Qed.

(** A visited schedule whose plan shows nothing gets no row and no entry
    in the list. *)
Lemma unplanned_is_absent now meds w m s :
  NoDup (map sid (pairs meds)) ->
  In (m, s) (pairs meds) ->
  plan_time (plan (LocalTZA w) now (getDay (LocalTZA w) now)
                  (logs w) s) = [] ->
  let r := PatientDashboard.generateUpcomingDoses now meds w in
  (forall l, In l (created w (fst r)) ->
             DoseLog.schedule_id l <> Schedule.id s)
  /\ (snd r = Ok tt ->
      forall d, In d (upcomingDoses (state (fst r))) ->
                Schedule.id (UpcomingDose.schedule d) <> Schedule.id s).
Proof.
  intros Hnd Hin Hplan r.
  destruct (generate_result now meds w Hnd) as (extra & HL & HE & HR).
  fold r in HL, HR. split.
  - rewrite (created_app _ _ _ HL). intros l Hl E.
    destruct (HE l Hl) as (p & t & Hp & Hc & Hs & _).
    assert (p = (m, s)).
    { apply (NoDup_map_In_eq sid (pairs meds)); auto. now rewrite <- Hs. }
    subst p. simpl in Hc. rewrite Hc in Hplan. discriminate.
  - intros Hok d Hd E.
    destruct HR as [(_ & doses & (_ & _ & H4) & Hup) | ((e & He) & _)];
      [| congruence].
    rewrite Hup in Hd. apply In_firstn in Hd.
    apply (Permutation_in _ (sort_perm PatientDashboard.by_time doses)) in Hd.
    destruct (H4 d Hd) as [[] | (p & Hp & Hs & _ & Ht)].
    assert (p = (m, s)).
    { apply (NoDup_map_In_eq sid (pairs meds)); auto.
      unfold sid. simpl. now rewrite <- Hs. }
    subst p. simpl in Ht. rewrite Hplan in Ht. contradiction.
Qed.

(** The empty weekday set holds no day. *)
Lemma includes_nil today : includes [] today = false.
Proof. reflexivity. Qed.

(** C5. A visited schedule whose weekday set does not hold today's index
    (the empty set included) gets nothing from a pass, whatever its time
    of day: no row of [dose_logs] is created for it, and the list the
    pass sets has no entry for it. Schedule identifiers are a primary
    key, so no two visited schedules share one. *)
Theorem excluded_weekday_yields_nothing :
  forall now meds w m s,
    NoDup (map sid (pairs meds)) ->
    In (m, s) (pairs meds) ->
    includes (Schedule.days_of_week s) (getDay (LocalTZA w) now) = false ->
    let r := PatientDashboard.generateUpcomingDoses now meds w in
    (forall l, In l (created w (fst r)) ->
               DoseLog.schedule_id l <> Schedule.id s)
    /\ (snd r = Ok tt ->
        forall d, In d (upcomingDoses (state (fst r))) ->
                  Schedule.id (UpcomingDose.schedule d) <> Schedule.id s).
Proof.
  intros now meds w m s Hnd Hin Hday.
  apply (unplanned_is_absent now meds w m s Hnd Hin).
  unfold plan. now rewrite Hday.
Qed.

(** C10. A visited schedule due today whose scheduled time, as
    [setHours] yields it in the zone of the browser, is an hour or more
    after [now], and for which [dose_logs] holds no row in the one-minute
    window, is left out by the pass altogether: no row is created for it
    and the list has no entry for it. *)
Theorem far_future_unlogged_is_absent :
  forall now meds w m s t,
    NoDup (map sid (pairs meds)) ->
    In (m, s) (pairs meds) ->
    includes (Schedule.days_of_week s) (getDay (LocalTZA w) now) = true ->
    PatientDashboard.scheduledTimeOf (LocalTZA w) now s = Some t ->
    3600000 <= t - now ->
    (forall l, In l (logs w) ->
               in_window (Schedule.id s) t (t + 60000) l = false) ->
    let r := PatientDashboard.generateUpcomingDoses now meds w in
    (forall l, In l (created w (fst r)) ->
               DoseLog.schedule_id l <> Schedule.id s)
    /\ (snd r = Ok tt ->
        forall d, In d (upcomingDoses (state (fst r))) ->
                  Schedule.id (UpcomingDose.schedule d) <> Schedule.id s).
Proof.
  intros now meds w m s t Hnd Hin Hday Ht Hfar Hnone.
  apply (unplanned_is_absent now meds w m s Hnd Hin).
  unfold plan. rewrite Hday, Ht. simpl.
  unfold TimeClip. destruct (Z.abs (t + 60000) <=? 8640000000000000);
    [| reflexivity].
  replace (filter (in_window (Schedule.id s) t (t + 60000)) (logs w))
    with (@nil DoseLog.t).
  - simpl. destruct (Z.ltb_spec (t - now) 3600000); [lia | reflexivity].
  - symmetry. induction (logs w) as [| l r' IH]; [reflexivity |].
    simpl. rewrite (Hnone l (or_introl eq_refl)).
    apply IH. intros l' Hl'. apply Hnone. now right.
Qed.

(** ** The list a pass shows *)




(** Which five are shown. Seven doses are due, one at each hour from
    01:00 to 07:00, and the clock reads 06:30: the pass creates a row for
    each of the seven, and the list shows those of 01:00 to 05:00; the
    two nearest to the clock, 06:00 and 07:00, are not on it. *)
Example five_earliest_are_shown :
  let r := PatientDashboard.generateUpcomingDoses Sample2.at_0630
             Sample2.seven Sample2.seven_world in
  snd r = Ok tt
  /\ List.length (logs (fst r)) = 7%nat
  /\ Sample.names (fst r) = ["A"; "B"; "C"; "D"; "E"].
Proof. vm_compute. repeat split. Qed.

(** ** What [plan] depends on *)

Lemma plan_Invalid_any_rows tz now today rows rows' s :
  plan tz now today rows s = Invalid -> plan tz now today rows' s = Invalid.
Proof.
  unfold plan. destruct (negb _); [discriminate |].
  destruct (PatientDashboard.scheduledTimeOf tz now s) as [t |];
    [| reflexivity].
  destruct (TimeClip (t + 60000)); [| reflexivity].
  destruct (maybeSingle _); [discriminate |].
  destruct (t - now <? 3600000); discriminate.
Qed.

Lemma loop_only_creates now today ps acc :
  preserves only_creates (forEach ps (visit now today) acc).
Proof.
  apply preserves_forEach;
    [exact only_creates_refl | exact only_creates_trans |].
  intros p a _. apply visit_only_creates.
Qed.

(** ** A window that holds more than one row *)

Lemma filter_nil_iff {A} (f : A -> bool) (l : list A) :
  filter f l = [] <-> forall x, In x l -> f x = false.
Proof.
  induction l as [| a r IH]; simpl.
  - split; [contradiction | reflexivity].
  - destruct (f a) eqn:E; split.
    + discriminate.
    + intro H. specialize (H a (or_introl eq_refl)). congruence.
    + intros H x [<- | Hx]; [exact E | now apply IH].
    + intro H. apply IH. intros x Hx. apply H. now right.
Qed.

(** C1 at a table where the claim and the code part ways. The table
    holds two rows for the 08:00 dose of the day (two tabs raced, as the
    specification itself expects). At 07:30 a dose log exists in the
    window, so C1 has no row created; the lookup, finding two rows,
    yields none, and the pass inserts a third. The next poll inserts a
    fourth. *)
Theorem duplicate_rows_breed_rows :
  let rows := [Sample.row "a" pending None; Sample.row "b" pending None] in
  filter (in_window "s1" Sample.at_0800 (Sample.at_0800 + 60000)) rows = rows
  /\ snd (PatientDashboard.loadData Sample.at_0730 (Sample.world rows)) = Ok tt
  /\ created (Sample.world rows)
             (fst (PatientDashboard.loadData Sample.at_0730 (Sample.world rows)))
     = [Sample.row "log-2" pending None]
  /\ created (Sample.world rows)
             (passes [Sample.at_0730; Sample.at_0735] (Sample.world rows))
     = [Sample.row "log-2" pending None; Sample.row "log-3" pending None].
Proof. vm_compute. repeat split. Qed.

(** C2 at a table where the claim and the code part ways. The table
    holds two rows for the 08:00 dose of the day, as two tabs loading at
    once leave them (nothing in the schema forbids it). A pass at 07:30
    finds both in the window, reads [null] from the lookup and inserts a
    third row; a second pass at the very same clock reading, with the
    medications and the schedules as they were and the dose logs as the
    first pass left them, inserts a fourth. The table then holds four
    rows for one (schedule, scheduled timestamp) pair. *)
Theorem second_pass_adds_another_row :
  let rows := [Sample.row "a" pending None; Sample.row "b" pending None] in
  let w1 := passes [Sample.at_0730] (Sample.world rows) in
  let w2 := passes [Sample.at_0730; Sample.at_0730] (Sample.world rows) in
  logs w1 = rows ++ [Sample.row "log-2" pending None]
  /\ logs w2 = logs w1 ++ [Sample.row "log-3" pending None]
  /\ Db.medications (db w2) = Db.medications (db w1)
  /\ Db.schedules (db w2) = Db.schedules (db w1)
  /\ map (fun l => (DoseLog.schedule_id l, DoseLog.scheduled_time l)) (logs w2)
     = repeat ("s1", Sample.at_0800) 4
  /\ console w2 = [].
Proof. vm_compute. repeat split. Qed.

(** ** Compliance *)

Lemma compliance_no_logs takenDoses :
  CaregiverDashboard.compliance 0 takenDoses = Number_of_Z 100.
Proof. reflexivity. Qed.

Lemma Number_eqb_eq x y : Number_eqb x y = true -> x = y.
Proof.
  destruct x as [a | a | | a m e], y as [b | b | | b m' e']; simpl;
    try discriminate; intro H.
  - now apply Bool.eqb_prop in H; subst.
  - now apply Bool.eqb_prop in H; subst.
  - reflexivity.
  - apply andb_prop in H. destruct H as [H He].
    apply andb_prop in H. destruct H as [Hs Hm].
    apply Bool.eqb_prop in Hs. apply Pos.eqb_eq in Hm. apply Z.eqb_eq in He.
    now subst.
Qed.

(** With fewer than forty logs the two figures are the same. *)
Lemma compliance_agrees_below_forty N K :
  (K <= N < 40)%nat ->
  CaregiverDashboard.compliance (Z.of_nat N) (Z.of_nat K)
  = Number_of_Z (spec_compliance (Z.of_nat N) (Z.of_nat K)).
Proof.
  intros [HK HN]. apply Number_eqb_eq.
  assert (Hall : forallb (fun n => forallb (agrees n) (seq 0 (S n))) (seq 0 40)
                 = true) by (vm_compute; reflexivity).
  rewrite forallb_forall in Hall.
  specialize (Hall N). rewrite forallb_forall in Hall.
  apply Hall; apply in_seq; lia.
Qed.

(** C4 at an input where the claim and the code part ways. Of the
    patient's forty dose logs of the day twenty-three are taken:
    100 * 23 / 40 is 57.5, which rounds to 58. The code divides first,
    in binary64: 23 / 40 times 100 is 57.49999999999999, and the figure
    reported is 57. *)
Theorem compliance_rounds_the_binary_product :
  CaregiverDashboard.patientsData Sample.utc (fun _ => Sample.at_0730)
    Sample.busy_day "g1"
  = Ok [{| CaregiverDashboard.patient := "p1";
           CaregiverDashboard.medications := [Sample.aspirin];
           CaregiverDashboard.missedDoses := 0;
           CaregiverDashboard.todayCompliance := Number_of_Z 57;
           CaregiverDashboard.relationship := "daughter" |}]
  /\ List.length
       (CaregiverDashboard.select_dose_logs Sample.busy_day
          (Sample.at_0730 / msPerDay * msPerDay) "p1") = 40%nat
  /\ CaregiverDashboard.count_status taken
       (CaregiverDashboard.select_dose_logs Sample.busy_day
          (Sample.at_0730 / msPerDay * msPerDay) "p1") = 23
  /\ spec_compliance 40 23 = 58
  /\ Number_of_Z 57 <> Number_of_Z 58.
Proof.
  repeat split; try (vm_compute; reflexivity).
  vm_compute. discriminate.
Qed.

(** ** The statements at the sample data *)

Lemma sample_ids_distinct : NoDup (map sid (pairs Sample.cabinet)).
Proof.
  repeat constructor; simpl; intuition discriminate.
Defined.


Lemma excluded_weekday_yields_nothing_witness :
  includes (Schedule.days_of_week Sample.weekend)
           (getDay (LocalTZA (Sample.world [])) Sample.at_0730) = false
  /\ snd (PatientDashboard.generateUpcomingDoses Sample.at_0730 Sample.cabinet
            (Sample.world [])) = Ok tt
  /\ ((forall l,
          In l (created (Sample.world [])
                  (fst (PatientDashboard.generateUpcomingDoses Sample.at_0730
                          Sample.cabinet (Sample.world [])))) ->
          DoseLog.schedule_id l <> Schedule.id Sample.weekend)
      /\ (snd (PatientDashboard.generateUpcomingDoses Sample.at_0730
                 Sample.cabinet (Sample.world [])) = Ok tt ->
          forall d,
            In d (upcomingDoses
                    (state (fst (PatientDashboard.generateUpcomingDoses
                                   Sample.at_0730 Sample.cabinet
                                   (Sample.world []))))) ->
            Schedule.id (UpcomingDose.schedule d)
            <> Schedule.id Sample.weekend)).
Proof.
  split; [reflexivity |]. split; [reflexivity |].
  apply (excluded_weekday_yields_nothing Sample.at_0730 Sample.cabinet
           (Sample.world [])
           {| med := Sample.aspirin;
              med_schedules := [Sample.morning; Sample.weekend] |}
           Sample.weekend sample_ids_distinct).
  - simpl. right. left. reflexivity.
  - reflexivity.
Defined.

Lemma eastern_ids_distinct : NoDup (map sid (pairs NewYork.cabinet)).
Proof.
  repeat constructor; simpl; intuition discriminate.
Defined.

Lemma far_future_unlogged_is_absent_witness :
  PatientDashboard.scheduledTimeOf (LocalTZA NewYork.world) NewYork.at_0030
    NewYork.night = Some NewYork.at_0315
  /\ NewYork.at_0315 - NewYork.at_0030 = 105 * msPerMinute
  /\ snd (PatientDashboard.generateUpcomingDoses NewYork.at_0030
            NewYork.cabinet NewYork.world) = Ok tt
  /\ ((forall l,
          In l (created NewYork.world
                  (fst (PatientDashboard.generateUpcomingDoses NewYork.at_0030
                          NewYork.cabinet NewYork.world))) ->
          DoseLog.schedule_id l <> Schedule.id NewYork.night)
      /\ (snd (PatientDashboard.generateUpcomingDoses NewYork.at_0030
                 NewYork.cabinet NewYork.world) = Ok tt ->
          forall d,
            In d (upcomingDoses
                    (state (fst (PatientDashboard.generateUpcomingDoses
                                   NewYork.at_0030 NewYork.cabinet
                                   NewYork.world)))) ->
            Schedule.id (UpcomingDose.schedule d)
            <> Schedule.id NewYork.night)).
Proof.
  split; [reflexivity |]. split; [reflexivity |]. split; [reflexivity |].
  apply (far_future_unlogged_is_absent NewYork.at_0030 NewYork.cabinet
           NewYork.world
           {| med := Sample.aspirin; med_schedules := [NewYork.night] |}
           NewYork.night NewYork.at_0315 eastern_ids_distinct).
  - simpl. left. reflexivity.
  - reflexivity.
  - reflexivity.
  - vm_compute. discriminate.
  - intros l [].
Defined.


(** ** The scenarios of the specification, run *)

(** Monday 07:30, a dose at 08:00 on weekdays and one on the weekend: the
    load creates the one pending row and shows it. Marked taken at 07:35,
    the row reads taken with that timestamp, and the reload that follows
    still shows one entry, now taken. *)
Example monday_morning :
  logs (passes [Sample.at_0730] (Sample.world []))
  = [Sample.row "log-0" pending None]
  /\ upcomingDoses (state (passes [Sample.at_0730] (Sample.world [])))
     = [Sample.shown_pending]
  /\ logs (fst (PatientDashboard.markDoseTaken Sample.shown_pending
                  Sample.at_0735 Sample.at_0736
                  (passes [Sample.at_0730] (Sample.world []))))
     = [Sample.row "log-0" taken (Some Sample.at_0735)]
  /\ map PatientDashboard.displayStatus
         (upcomingDoses
            (state (fst (PatientDashboard.markDoseTaken Sample.shown_pending
                           Sample.at_0735 Sample.at_0736
                           (passes [Sample.at_0730] (Sample.world []))))))
     = [taken].
Proof. vm_compute. repeat split. Qed.

(** Monday 05:00: the 08:00 dose is more than an hour away; nothing is
    created and nothing is shown. *)
Example monday_before_dawn :
  logs (passes [Sample.at_0500] (Sample.world [])) = []
  /\ upcomingDoses (state (passes [Sample.at_0500] (Sample.world []))) = [].
Proof. vm_compute. split; reflexivity. Qed.

(** From an empty table a second load at the same clock reading finds
    the row the first one created and adds none. *)
Example monday_morning_twice :
  logs (passes [Sample.at_0730; Sample.at_0730] (Sample.world []))
  = [Sample.row "log-0" pending None].
Proof. vm_compute. reflexivity. Qed.

(** Exactly an hour ahead is not yet within the hour. *)
Example monday_exactly_an_hour_ahead :
  logs (passes [Sample.at_0700] (Sample.world [])) = []
  /\ logs (passes [Sample.at_0700 + 1] (Sample.world []))
     = [Sample.row "log-0" pending None].
Proof. vm_compute. split; reflexivity. Qed.

(** ** A day on which the clocks change *)

(** Sunday 8 March 2026 in New York, 01:30: the dose of 03:15 is read
    with the offset in effect at 03:15, after the clocks have gone
    forward, and so is 45 minutes ahead, not an hour and 45 minutes: the
    pass creates its row. *)
Example spring_forward_night :
  PatientDashboard.scheduledTimeOf NewYork.zone NewYork.at_0130 NewYork.night
  = Some NewYork.at_0315
  /\ NewYork.at_0315 - NewYork.at_0130 = 45 * msPerMinute
  /\ logs (passes [NewYork.at_0130] NewYork.world)
     = [DoseLog.mk "log-0" "s4" NewYork.at_0315 None pending ""].
Proof. vm_compute. repeat split. Qed.

(** Sunday 1 November 2026 in New York, noon: the clocks went back at
    02:00, and the local midnight of the day lies thirteen hours back. *)
Example fall_back_midnight :
  setHours NewYork.zone NewYork.at_noon (Some 0) (Some 0)
  = Some NewYork.midnight
  /\ NewYork.at_noon - NewYork.midnight = 13 * msPerHour.
Proof. vm_compute. split; reflexivity. Qed.

(** * Further facts *)

(** ** Loading: what always happens, and what a bad time does *)

Lemma generate_state now meds w :
  let r := PatientDashboard.generateUpcomingDoses now meds w in
  medications (state (fst r)) = medications (state w)
  /\ loading (state (fst r)) = loading (state w)
  /\ console (fst r) = console w.
Proof.
  intro r. subst r. rewrite generate_unfold.
  pose proof (loop_same_view now (getDay (LocalTZA w) now)
                (pairs meds) [] w) as [HS HC].
  destruct (forEach (pairs meds) _ [] w) as [w1 [doses | e]]; simpl in *.
  - rewrite HS, HC. auto.
  - rewrite HS, HC. auto.
Qed.

Lemma loadData_unfold now w :
  PatientDashboard.loadData now w
  = match Db.refuses (db w) (Db.requests (db w)) with
    | Some medsError =>
        (fst (setLoading false
                (fst (console_error "Error loading data:" medsError
                        (queried w)))),
         Ok tt)
    | None =>
        let meds := active_medications (db w) in
        match PatientDashboard.generateUpcomingDoses now meds
                (fst (setMedications meds (queried w)))
        with
        | (w1, Ok _) => (fst (setLoading false w1), Ok tt)
        | (w1, Throw e) =>
            (fst (setLoading false
                    (fst (console_error "Error loading data:" e w1))),
             Ok tt)
        end
    end.
Proof.
  unfold PatientDashboard.loadData, finally, try_catch, bind,
    select_active_medications.
  fold (queried w).
  destruct (Db.refuses (db w) (Db.requests (db w))) as [medsError |].
  - reflexivity.
  - cbv zeta.
    change (setMedications (active_medications (db w)) (queried w))
      with (fst (setMedications (active_medications (db w)) (queried w)),
            @Ok unit tt).
    cbv beta iota.
    destruct (PatientDashboard.generateUpcomingDoses now _ _)
      as [w1 [[] | e]]; reflexivity.
Qed.

Lemma loadData_settles now w :
  snd (PatientDashboard.loadData now w) = Ok tt
  /\ loading (state (fst (PatientDashboard.loadData now w))) = false
  /\ (answers_next w ->
      medications (state (fst (PatientDashboard.loadData now w)))
      = active_medications (db w)).
Proof.
  rewrite loadData_unfold. unfold answers_next.
  destruct (Db.refuses (db w) (Db.requests (db w))) as [medsError |].
  - repeat split. discriminate.
  - cbv zeta.
    set (meds := active_medications (db w)).
    set (w0 := fst (setMedications meds (queried w))).
    destruct (generate_state now meds w0) as (HM & _ & _).
    destruct (PatientDashboard.generateUpcomingDoses now meds w0)
      as [w1 [[] | e]]; simpl in *; repeat split; intros _; exact HM.
Qed.

Lemma loadData_refused now w medsError :
  Db.refuses (db w) (Db.requests (db w)) = Some medsError ->
  let w' := fst (PatientDashboard.loadData now w) in
  medications (state w') = medications (state w)
  /\ upcomingDoses (state w') = upcomingDoses (state w)
  /\ logs w' = logs w
  /\ console w'
     = console w
         ++ [String.append "Error loading data:" (String.append " " medsError)].
Proof.
  intros H w'. subst w'. rewrite loadData_unfold, H.
  repeat split.
Qed.

(** X1. [loadData] never raises and always ends with the loading flag
    off. When the medications query is answered, the medication list of
    the component becomes the active medications of the database. When
    it is refused, the error is thrown and caught: the medication list,
    the list of doses and [dose_logs] stay as they were, and the console
    gets one line, with the error of the query. *)
Theorem loadData_always_settles :
  forall now w,
    let w' := fst (PatientDashboard.loadData now w) in
    snd (PatientDashboard.loadData now w) = Ok tt
    /\ loading (state w') = false
    /\ (answers_next w ->
        medications (state w') = active_medications (db w))
    /\ (forall medsError,
           Db.refuses (db w) (Db.requests (db w)) = Some medsError ->
           medications (state w') = medications (state w)
           /\ upcomingDoses (state w') = upcomingDoses (state w)
           /\ logs w' = logs w
           /\ console w'
              = console w
                  ++ [String.append "Error loading data:"
                        (String.append " " medsError)]).
Proof.
  intros now w w'. subst w'.
  destruct (loadData_settles now w) as (H1 & H2 & H3).
  split; [exact H1 |]. split; [exact H2 |]. split; [exact H3 |].
  intros medsError H. now apply loadData_refused.
Qed.

Lemma plan_Invalid_iff tz now rows s :
  plan tz now (getDay tz now) rows s = Invalid <-> unreadable tz now s.
Proof.
  unfold plan, unreadable. split.
  - destruct (includes _ _); [| discriminate]. simpl.
    destruct (PatientDashboard.scheduledTimeOf tz now s) as [t |].
    + destruct (TimeClip (t + 60000)) as [hi |] eqn:E.
      * destruct (maybeSingle _); [discriminate |].
        destruct (t - now <? 3600000); discriminate.
      * intros _. split; [reflexivity |]. intros t' Ht'. congruence.
    + intros _. split; [reflexivity |]. intros t' Ht'. discriminate.
  - intros [-> H]. simpl.
    destruct (PatientDashboard.scheduledTimeOf tz now s) as [t |];
      [| reflexivity].
    now rewrite (H t eq_refl).
Qed.

Lemma visit_timezone now today p acc w :
  LocalTZA (fst (visit now today p acc w)) = LocalTZA w.
Proof. apply (visit_only_creates now today p acc w). Qed.

Lemma loop_raises now today ps :
  forall acc w,
    (exists p, In p ps
               /\ plan (LocalTZA w) now today [] (snd p) = Invalid) ->
    snd (forEach ps (visit now today) acc w)
    = Throw "RangeError: Invalid time value".
Proof.
  induction ps as [| q ps IH]; intros acc w (p & Hin & Hp).
  - contradiction.
  - simpl. unfold bind.
    pose proof (visit_timezone now today q acc w) as Htz.
    change (visit now today q acc w)
      with (PatientDashboard.occurrence now today (fst q) (snd q) acc w)
      in Htz |- *.
    rewrite occurrence_plan in Htz |- *.
    destruct (plan (LocalTZA w) now today (logs w) (snd q))
      as [| | t l | t] eqn:Hq; simpl in Htz |- *; try reflexivity;
      (destruct Hin as [<- | Hin];
       [ apply (plan_Invalid_any_rows _ _ _ _ (logs w)) in Hp; congruence
       | apply IH; exists p; split;
         [exact Hin | first [exact Hp | rewrite Htz; exact Hp]] ]).
Qed.

Lemma loop_completes now today ps :
  forall acc w,
    (forall p, In p ps ->
               plan (LocalTZA w) now today [] (snd p) <> Invalid) ->
    exists doses, snd (forEach ps (visit now today) acc w) = Ok doses.
Proof.
  induction ps as [| q ps IH]; intros acc w H.
  - now exists acc.
  - simpl. unfold bind.
    pose proof (visit_timezone now today q acc w) as Htz.
    change (visit now today q acc w)
      with (PatientDashboard.occurrence now today (fst q) (snd q) acc w)
      in Htz |- *.
    rewrite occurrence_plan in Htz |- *.
    destruct (plan (LocalTZA w) now today (logs w) (snd q))
      as [| | t l | t] eqn:Hq; simpl in Htz |- *.
    + apply IH. intros p Hp. apply H. now right.
    + exfalso. apply (H q (or_introl eq_refl)).
      now apply (plan_Invalid_any_rows _ _ _ (logs w)).
    + apply IH. intros p Hp. apply H. now right.
    + apply IH. intros p Hp. rewrite Htz. apply H. now right.
Qed.

Lemma generate_raises now meds w :
  (exists p, In p (pairs meds) /\ unreadable (LocalTZA w) now (snd p)) ->
  let r := PatientDashboard.generateUpcomingDoses now meds w in
  snd r = Throw "RangeError: Invalid time value"
  /\ state (fst r) = state w /\ console (fst r) = console w.
Proof.
  intros (p & Hin & Hp) r. subst r. rewrite generate_unfold.
  set (today := getDay (LocalTZA w) now).
  pose proof (loop_raises now today (pairs meds) [] w) as HT.
  pose proof (loop_same_view now today (pairs meds) [] w) as [HS HC].
  destruct (forEach (pairs meds) (visit now today) [] w) as [w1 r1].
  simpl in HT, HS, HC. rewrite HT.
  - auto.
  - exists p. split; [exact Hin |]. now apply plan_Invalid_iff.
Qed.

Lemma generate_completes now meds w :
  (forall p, In p (pairs meds) -> ~ unreadable (LocalTZA w) now (snd p)) ->
  snd (PatientDashboard.generateUpcomingDoses now meds w) = Ok tt.
Proof.
  intro H. rewrite generate_unfold.
  set (today := getDay (LocalTZA w) now).
  destruct (loop_completes now today (pairs meds) [] w) as (doses & Hd).
  - intros p Hp Hi. apply (H p Hp). now apply plan_Invalid_iff in Hi.
  - destruct (forEach (pairs meds) (visit now today) [] w) as [w1 r1].
    simpl in Hd. subst r1. reflexivity.
Qed.

(** X2. When the medications query is answered and a schedule of an
    active medication is due today and its time gives no valid date,
    [loadData] gives up: it writes one line to the console and leaves
    the list of doses as it was. *)
Theorem unreadable_time_aborts_load :
  forall now w p,
    answers_next w ->
    In p (pairs (active_medications (db w))) ->
    unreadable (LocalTZA w) now (snd p) ->
    console (fst (PatientDashboard.loadData now w))
    = console w ++ [load_error_line]
    /\ upcomingDoses (state (fst (PatientDashboard.loadData now w)))
       = upcomingDoses (state w).
Proof.
  intros now w p Hans Hin Hp.
  rewrite loadData_unfold. unfold answers_next in Hans. rewrite Hans.
  cbv zeta.
  set (meds := active_medications (db w)) in *.
  set (w0 := fst (setMedications meds (queried w))).
  destruct (generate_raises now meds w0) as (HT & HS & HC).
  { exists p. split; [exact Hin | exact Hp]. }
  destruct (PatientDashboard.generateUpcomingDoses now meds w0) as [w1 r1].
  simpl in HT, HS, HC. subst r1. simpl. rewrite HS, HC. split; reflexivity.
Qed.

(** ** Every entry listed has its row *)

Lemma plan_Existing tz now today rows s t l :
  plan tz now today rows s = Existing t l ->
  In l rows /\ in_window (Schedule.id s) t (t + 60000) l = true.
Proof.
  unfold plan. destruct (negb _); [discriminate |].
  destruct (PatientDashboard.scheduledTimeOf tz now s) as [t' |];
    [| discriminate].
  destruct (TimeClip (t' + 60000)) as [hi |] eqn:Hclip; [| discriminate].
  assert (hi = t' + 60000).
  { unfold TimeClip in Hclip. destruct (_ <=? _); congruence. }
  subst hi.
  destruct (filter (in_window (Schedule.id s) t' (t' + 60000)) rows)
    as [| l1 [| l2 r]] eqn:F; simpl.
  - destruct (t' - now <? 3600000); discriminate.
  - intro H. inversion H; subst.
    assert (Hin : In l (filter (in_window (Schedule.id s) t (t + 60000)) rows))
      by (rewrite F; now left).
    now apply filter_In in Hin.
  - destruct (t' - now <? 3600000); discriminate.
Qed.

Lemma backed_later w w' d : only_creates w w' -> backed w d -> backed w' d.
Proof.
  intros (_ & _ & _ & _ & _ & _ & extra & HL & _) (l & H1 & H2 & H3).
  exists l. split; [exact H1 |]. split; [| exact H3].
  rewrite HL. apply in_or_app. now left.
Qed.

Lemma in_window_bounds id t l :
  in_window id t (t + 60000) l = true ->
  DoseLog.schedule_id l = id /\ t <= DoseLog.scheduled_time l < t + 60000.
Proof.
  unfold in_window. intro H.
  apply andb_prop in H. destruct H as [H H3].
  apply andb_prop in H. destruct H as [H1 H2].
  apply String.eqb_eq in H1. apply Z.leb_le in H2. apply Z.ltb_lt in H3.
  auto.
Qed.

Lemma loop_backed now today ps :
  forall acc w,
    Forall (fun d => backed w d \/ without_log d) acc ->
    forall doses,
      snd (forEach ps (visit now today) acc w) = Ok doses ->
      Forall (fun d => backed (fst (forEach ps (visit now today) acc w)) d
                       \/ without_log d)
             doses.
Proof.
  induction ps as [| q ps IH]; intros acc w Hacc doses.
  - simpl. intro H. inversion H; subst. exact Hacc.
  - simpl. unfold bind.
    pose proof (visit_only_creates now today q acc w) as Hframe.
    change (visit now today q acc w)
      with (PatientDashboard.occurrence now today (fst q) (snd q) acc w)
      in Hframe |- *.
    rewrite occurrence_plan in Hframe |- *.
    destruct (plan (LocalTZA w) now today (logs w) (snd q))
      as [| | t l | t] eqn:Hq.
    + apply IH; auto.
    + discriminate.
    + apply IH.
      apply Forall_app. split; [exact Hacc |].
      constructor; [| constructor]. left.
      apply plan_Existing in Hq. destruct Hq as [Hin Hw].
      apply in_window_bounds in Hw. destruct Hw as [Hs Ht].
      exists l. simpl. auto.
    + simpl fst in *.
      set (w1 := fst (insert_dose_log (Schedule.id (snd q)) t w)) in *.
      apply IH.
      apply Forall_app. split.
      * eapply Forall_impl; [| exact Hacc].
        intros d [Hd | Hd]; [left | now right].
        eapply backed_later; eauto.
      * constructor; [| constructor].
        destruct (inserted (db w) (Schedule.id (snd q)) t) as [row |] eqn:E;
          [left | now right].
        exists row. simpl.
        split; [reflexivity |]. split.
        -- subst w1. rewrite logs_after_insert, E.
           apply in_or_app. right. now left.
        -- apply inserted_is_new in E. subst row. simpl. split; [reflexivity | lia].
Qed.

Lemma answers_after_visit now today p acc w :
  answers_from_now_on w ->
  answers_from_now_on (fst (visit now today p acc w)).
Proof.
  intro H. unfold visit. rewrite occurrence_plan.
  destruct (plan _ _ _ _ _); try exact H.
  unfold insert_dose_log. simpl.
  destruct (inserted _ _ _); intros n Hn; simpl in *; apply H; lia.
Qed.

Lemma loop_backed_answered now today ps :
  forall acc w,
    answers_from_now_on w ->
    (forall p, In p ps -> schedule_exists (db w) (sid p) = true) ->
    forall doses,
      snd (forEach ps (visit now today) acc w) = Ok doses ->
      forall d, In d doses -> without_log d -> In d acc.
Proof.
  induction ps as [| q ps IH]; intros acc w Hans Hfk doses.
  - simpl. intro H. inversion H; subst. auto.
  - simpl. unfold bind.
    pose proof (visit_only_creates now today q acc w) as Hframe.
    pose proof (answers_after_visit now today q acc w Hans) as Hans1.
    change (visit now today q acc w)
      with (PatientDashboard.occurrence now today (fst q) (snd q) acc w)
      in Hframe, Hans1 |- *.
    rewrite occurrence_plan in Hframe, Hans1 |- *.
    assert (Hfk' : forall p, In p ps -> schedule_exists (db w) (sid p) = true)
      by (intros p Hp; apply Hfk; now right).
    destruct (plan (LocalTZA w) now today (logs w) (snd q))
      as [| | t l | t] eqn:Hq.
    + apply IH; auto.
    + discriminate.
    + intros Hd d Hin Hno.
      specialize (IH _ w Hans Hfk' doses Hd d Hin Hno).
      apply in_app_or in IH. destruct IH as [IH | [<- | []]];
        [exact IH | discriminate].
    + simpl fst in *. intros Hd d Hin Hno.
      assert (Hfk1 : forall p, In p ps ->
                schedule_exists
                  (db (fst (insert_dose_log (Schedule.id (snd q)) t w)))
                  (sid p) = true).
      { intros p Hp. unfold schedule_exists.
        destruct Hframe as (_ & _ & -> & _). now apply Hfk'. }
      specialize (IH _ _ Hans1 Hfk1 doses Hd d Hin Hno).
      apply in_app_or in IH. destruct IH as [IH | [<- | []]];
        [exact IH |].
      exfalso. unfold without_log in Hno. simpl in Hno.
      unfold inserted in Hno.
      rewrite (Hans _ (le_n _)) in Hno.
      pose proof (Hfk q (or_introl eq_refl)) as Hex. unfold sid in Hex.
      rewrite Hex in Hno. discriminate.
Qed.

Lemma generate_backed now meds w :
  let r := PatientDashboard.generateUpcomingDoses now meds w in
  snd r = Ok tt ->
  Forall (fun d => backed (fst r) d \/ without_log d)
         (upcomingDoses (state (fst r)))
  /\ (answers_from_now_on w ->
      (forall p, In p (pairs meds) -> schedule_exists (db w) (sid p) = true) ->
      Forall (backed (fst r)) (upcomingDoses (state (fst r)))).
Proof.
  intro r. subst r. rewrite generate_unfold.
  set (today := getDay (LocalTZA w) now).
  pose proof (loop_backed now today (pairs meds) [] w (Forall_nil _)) as H.
  pose proof (loop_backed_answered now today (pairs meds) [] w) as Ha.
  destruct (forEach (pairs meds) (visit now today) [] w) as [w1 [doses | e]];
    [| discriminate].
  intros _. specialize (H doses eq_refl). cbn [fst] in H.
  unfold setUpcomingDoses, modify_state.
  cbn [fst snd state upcomingDoses].
  assert (Hin : forall d, In d (slice0 5 (sort PatientDashboard.by_time doses))
                          -> In d doses).
  { intros d Hd. unfold slice0 in Hd. apply In_firstn in Hd.
    now apply (Permutation_in _ (sort_perm PatientDashboard.by_time doses)). }
  rewrite Forall_forall in H.
  assert (Hall : forall d, In d (slice0 5 (sort PatientDashboard.by_time doses))
                           -> backed w1 d \/ without_log d).
  { intros d Hd. destruct (H d (Hin d Hd)) as [(l & H1 & H2 & H3) | Hno].
    - left. exists l. auto.
    - now right. }
  split.
  - apply Forall_forall. intros d Hd.
    destruct (Hall d Hd) as [(l & H1 & H2 & H3) | Hno];
      [left; exists l; auto | now right].
  - intros Hans Hfk. apply Forall_forall. intros d Hd.
    destruct (Hall d Hd) as [(l & H1 & H2 & H3) | Hno];
      [exists l; auto |].
    exfalso.
    exact (Ha Hans Hfk doses eq_refl d (Hin d Hd) Hno).
Qed.

Lemma active_schedules_exist d p :
  In p (pairs (active_medications d)) -> schedule_exists d (sid p) = true.
Proof.
  unfold pairs, active_medications. intro H.
  apply in_flat_map in H. destruct H as (m & Hm & Hp).
  apply in_map_iff in Hp. destruct Hp as (s & <- & Hs).
  apply filter_In in Hs. destruct Hs as [Hs _].
  apply in_map_iff in Hm. destruct Hm as (m0 & <- & _).
  simpl in Hs. apply filter_In in Hs. destruct Hs as [Hs _].
  unfold schedule_exists, sid. simpl.
  apply existsb_exists. exists s. split; [exact Hs | apply String.eqb_refl].
Qed.

(** X3. When the medications query is answered and no schedule of an
    active medication is unreadable, [loadData] completes without a
    console line, and every entry of the list it sets either carries a
    dose log that is a row of [dose_logs], of the entry's schedule and
    scheduled within the minute that starts at the entry's time, or
    carries no dose log at all. When the service refuses no request of
    the load, every entry carries its row. *)
Theorem loaded_entries_have_rows_unless_refused :
  forall now w,
    answers_next w ->
    (forall p, In p (pairs (active_medications (db w))) ->
               ~ unreadable (LocalTZA w) now (snd p)) ->
    let w' := fst (PatientDashboard.loadData now w) in
    console w' = console w
    /\ Forall (fun d => backed w' d \/ without_log d)
              (upcomingDoses (state w'))
    /\ (answers_from_now_on w ->
        Forall (backed w') (upcomingDoses (state w'))).
Proof.
  intros now w Hans Hread w'. subst w'.
  rewrite loadData_unfold. unfold answers_next in Hans. rewrite Hans.
  cbv zeta.
  set (meds := active_medications (db w)) in *.
  set (w0 := fst (setMedications meds (queried w))).
  pose proof (generate_completes now meds w0 Hread) as Hok.
  pose proof (generate_backed now meds w0) as Hb.
  destruct (generate_state now meds w0) as (_ & _ & HC).
  destruct (PatientDashboard.generateUpcomingDoses now meds w0) as [w1 r1].
  simpl in Hok, Hb, HC. subst r1. simpl.
  destruct (Hb eq_refl) as [Hb1 Hb2].
  split; [exact HC |]. split; [exact Hb1 |].
  intro Hall. apply Hb2.
  - intros n Hn. apply Hall. simpl in Hn. lia.
  - intros p Hp. now apply (active_schedules_exist (db w)).
Qed.

(** ** The two buttons leave the other rows alone *)

(** X4. Marking an occurrence taken or skipped changes no row of
    [dose_logs] whose identifier differs from that of the occurrence's
    dose log: each such row stays, unchanged, at its place. *)
Theorem mark_leaves_other_rows :
  forall dose log now later w i l,
    UpcomingDose.doseLog dose = Some log ->
    nth_error (logs w) i = Some l ->
    DoseLog.id l <> DoseLog.id log ->
    nth_error (logs (fst (PatientDashboard.markDoseTaken dose now later w))) i
    = Some l
    /\ nth_error (logs (fst (PatientDashboard.markDoseSkipped dose later w))) i
       = Some l.
Proof.
  intros dose log now later w i l Hd Hn Hid.
  assert (Hne : String.eqb (DoseLog.id l) (DoseLog.id log) = false)
    by now apply String.eqb_neq.
  split.
  - unfold PatientDashboard.markDoseTaken. rewrite Hd.
    eapply nth_error_only_creates.
    + apply update_then_reload_only_creates.
      intro e. apply console_error_only_creates.
    + rewrite (nth_error_update _ _ _ _ _ Hn). now rewrite Hne.
  - unfold PatientDashboard.markDoseSkipped. rewrite Hd.
    eapply nth_error_only_creates.
    + apply update_then_reload_only_creates.
      intro e. apply console_error_only_creates.
    + rewrite (nth_error_update _ _ _ _ _ Hn). now rewrite Hne.
Qed.

(** ** Reading a schedule's time *)

Lemma digit_not_colon k : 0 <= k <= 9 -> Ascii.eqb (digit k) ":" = false.
Proof.
  intro H.
  assert (E : k = 0 \/ k = 1 \/ k = 2 \/ k = 3 \/ k = 4 \/ k = 5 \/ k = 6
              \/ k = 7 \/ k = 8 \/ k = 9) by lia.
  repeat (destruct E as [-> | E]; [reflexivity |]). subst. reflexivity.
Qed.

Lemma split_two_fields a b c d :
  Ascii.eqb a ":" = false -> Ascii.eqb b ":" = false ->
  Ascii.eqb c ":" = false -> Ascii.eqb d ":" = false ->
  forall tail,
    tail = EmptyString \/ (exists rest, tail = String ":" rest) ->
    exists more,
      split ":" (String a (String b (String ":" (String c (String d tail)))))
      = String a (String b EmptyString)
        :: String c (String d EmptyString) :: more.
Proof.
  intros Ha Hb Hc Hd tail [-> | (rest & ->)]; unfold split; simpl;
    rewrite Ha, Hb, Hc, Hd; simpl; eexists; reflexivity.
Qed.

Lemma parseInt_pad2 n : 0 <= n < 100 -> parseInt (Some (pad2 n)) = Some n.
Proof.
  intro H.
  assert (Hall : forallb (fun k => match parseInt (Some (pad2 (Z.of_nat k))) with
                                   | Some v => v =? Z.of_nat k
                                   | None => false
                                   end) (seq 0 100) = true)
    by (vm_compute; reflexivity).
  rewrite forallb_forall in Hall.
  specialize (Hall (Z.to_nat n)). rewrite Z2Nat.id in Hall by lia.
  destruct (parseInt (Some (pad2 n))) as [v |].
  - f_equal. apply Z.eqb_eq. apply Hall. apply in_seq. lia.
  - discriminate Hall. apply in_seq. lia.
Qed.

Lemma day_bounds x : Day x * msPerDay <= x < Day x * msPerDay + msPerDay.
Proof.
  unfold Day, msPerDay.
  pose proof (Z.mul_div_le x 86400000 ltac:(lia)).
  pose proof (Z.mul_succ_div_gt x 86400000 ltac:(lia)).
  lia.
Qed.

Lemma setHours_in_range tz now h m :
  within_a_day tz ->
  Z.abs now <= 8640000000000000 - 3 * msPerDay ->
  0 <= h < 24 -> 0 <= m < 60 ->
  setHours tz now (Some h) (Some m) = Some (UTC tz (wall_clock tz now h m)).
Proof.
  intros Hz Hnow Hh Hm.
  unfold setHours. fold (wall_clock tz now h m).
  set (target := wall_clock tz now h m).
  unfold TimeClip.
  replace (Z.abs (UTC tz target) <=? 8640000000000000) with true;
    [reflexivity |].
  symmetry. apply Z.leb_le.
  pose proof (day_bounds (LocalTime tz now)) as HD.
  pose proof (Hz now true) as H1. pose proof (Hz target false) as H2.
  unfold UTC. subst target.
  unfold wall_clock, MakeDate, MakeTime, LocalTime in *.
  set (D := Day (now + tz now true)) in *.
  unfold msPerDay, msPerHour, msPerMinute in *. lia.
Qed.

Lemma Day_of_wall_clock tz now h m :
  0 <= h < 24 -> 0 <= m < 60 ->
  Day (wall_clock tz now h m) = Day (LocalTime tz now).
Proof.
  intros Hh Hm. unfold wall_clock, MakeDate, MakeTime.
  set (D := Day (LocalTime tz now)).
  unfold Day, msPerDay, msPerHour, msPerMinute.
  replace (D * 86400000 + (h * 3600000 + m * 60000 + 0 * 1000 + 0))
    with ((h * 3600000 + m * 60000) + D * 86400000) by ring.
  rewrite Z.div_add by lia. rewrite Z.div_small by lia. lia.
Qed.

(** X5. A time the database writes as HH:MM:SS, or the form writes as
    HH:MM, with HH below 24 and MM below 60, is read as that wall-clock
    time of today's local date and turned into an instant with the
    offset in effect at that local time; the seconds play no part. When
    that is also the offset in effect at the instant obtained, as it is
    unless a change of offset skips that local time, the scheduled time
    reads HH:MM on today's local date and weekday. The zone's offsets
    are assumed within a day of UTC and the clock three days inside the
    range of valid dates. *)
Theorem time_text_is_read_as_todays_wall_clock_time :
  forall tz now s h m tail,
    0 <= h < 24 -> 0 <= m < 60 ->
    tail = EmptyString \/ (exists rest, tail = String ":" rest) ->
    Schedule.time s
    = String.append (pad2 h) (String ":" (String.append (pad2 m) tail)) ->
    within_a_day tz ->
    Z.abs now <= 8640000000000000 - 3 * msPerDay ->
    let target := wall_clock tz now h m in
    exists t,
      PatientDashboard.scheduledTimeOf tz now s = Some t
      /\ t = target - tz target false
      /\ (tz t true = tz target false ->
          LocalTime tz t
          = Day (LocalTime tz now) * msPerDay + h * msPerHour + m * msPerMinute
          /\ Day (LocalTime tz t) = Day (LocalTime tz now)
          /\ getDay tz t = getDay tz now).
Proof.
  intros tz now s h m tail Hh Hm Htail Htime Hz Hnow target.
  unfold PatientDashboard.scheduledTimeOf. rewrite Htime.
  destruct (split_two_fields (digit (h / 10)) (digit (h mod 10))
              (digit (m / 10)) (digit (m mod 10))) with (tail := tail)
    as (more & Hsplit); try exact Htail;
    try (apply digit_not_colon;
         first [ pose proof (Z.mod_pos_bound h 10); lia
               | pose proof (Z.mod_pos_bound m 10); lia
               | pose proof (Z.div_pos h 10);
                 pose proof (Z.div_lt_upper_bound h 10 10); lia
               | pose proof (Z.div_pos m 10);
                 pose proof (Z.div_lt_upper_bound m 10 10); lia ]).
  change (String.append (pad2 h) (String ":" (String.append (pad2 m) tail)))
    with (String (digit (h / 10))
            (String (digit (h mod 10))
               (String ":" (String (digit (m / 10))
                              (String (digit (m mod 10)) tail))))).
  rewrite Hsplit. simpl nth_error.
  change (String (digit (h / 10)) (String (digit (h mod 10)) EmptyString))
    with (pad2 h).
  change (String (digit (m / 10)) (String (digit (m mod 10)) EmptyString))
    with (pad2 m).
  rewrite !parseInt_pad2 by lia.
  rewrite (setHours_in_range tz now h m Hz Hnow Hh Hm).
  fold target. exists (UTC tz target).
  split; [reflexivity |]. split; [reflexivity |].
  intro Hsame.
  assert (HL : LocalTime tz (UTC tz target) = target).
  { unfold LocalTime at 1. rewrite Hsame. unfold UTC. ring. }
  split.
  - rewrite HL. subst target.
    unfold wall_clock, MakeDate, MakeTime. ring.
  - rewrite <- (Day_of_wall_clock tz now h m Hh Hm). fold target.
    split; [now rewrite HL |].
    unfold getDay, WeekDay. rewrite HL.
    now rewrite <- (Day_of_wall_clock tz now h m Hh Hm).
Qed.

Lemma split_aux_no_separator sep s :
  ~ In sep (list_ascii_of_string s) ->
  forall cur, split_aux sep s cur = [String.append cur s].
Proof.
  induction s as [| c s IH]; intros Hno cur; simpl.
  - f_equal. induction cur as [| x cur IHc]; simpl; congruence.
  - destruct (Ascii.eqb_spec c sep) as [-> | Hne].
    + exfalso. apply Hno. now left.
    + rewrite IH by (intro Hin; apply Hno; now right).
      f_equal. induction cur as [| x cur IHc]; simpl; congruence.
Qed.

(** X6. A time text without a colon has no minute field: whatever the
    clock and the zone, the scheduled time is an invalid date. *)
Theorem time_without_colon_is_invalid :
  forall tz now s,
    ~ In ":"%char (list_ascii_of_string (Schedule.time s)) ->
    PatientDashboard.scheduledTimeOf tz now s = None.
Proof.
  intros tz now s Hno.
  unfold PatientDashboard.scheduledTimeOf, split.
  rewrite (split_aux_no_separator _ _ Hno).
  cbn [nth_error String.append]. unfold setHours.
  destruct (parseInt (Some (Schedule.time s))); reflexivity.
Qed.

(** ** The day buttons of the form *)

Lemma includes_In l x : includes l x = true <-> In x l.
Proof.
  unfold includes. rewrite existsb_exists. split.
  - intros (y & Hy & E). apply Z.eqb_eq in E. now subst.
  - intro H. exists x. split; [exact H | apply Z.eqb_refl].
Qed.

Lemma includes_app l1 l2 x :
  includes (l1 ++ l2) x = includes l1 x || includes l2 x.
Proof. unfold includes. apply existsb_app. Qed.

Lemma includes_filter_out l day d :
  includes (filter (fun e => negb (e =? day)) l) d
  = includes l d && negb (d =? day).
Proof.
  apply eq_true_iff_eq.
  rewrite andb_true_iff, !includes_In, filter_In. reflexivity.
Qed.

(** X7. Pressing a day button switches that day in the selection and no
    other: afterwards the day is selected exactly if it was not before,
    and every other day is selected exactly if it was. *)
Theorem toggleDay_switches_one_day :
  forall day prev d,
    includes (AddMedicationModal.toggleDay day prev) d
    = if d =? day then negb (includes prev day) else includes prev d.
Proof.
  intros day prev d. unfold AddMedicationModal.toggleDay.
  destruct (includes prev day) eqn:E.
  - rewrite includes_filter_out.
    destruct (Z.eqb_spec d day) as [-> | Hd]; simpl.
    + now rewrite andb_false_r.
    + now rewrite andb_true_r.
  - rewrite includes_app. simpl.
    destruct (Z.eqb_spec d day) as [-> | Hd]; simpl.
    + now rewrite orb_true_r.
    + now rewrite !orb_false_r.
Qed.

Lemma toggleDay_NoDup day prev :
  NoDup prev -> NoDup (AddMedicationModal.toggleDay day prev).
Proof.
  intro H. unfold AddMedicationModal.toggleDay.
  destruct (includes prev day) eqn:E.
  - now apply NoDup_filter.
  - apply Permutation_NoDup with (l := day :: prev).
    + apply Permutation_cons_append.
    + constructor; [| exact H].
      intro Hin. apply includes_In in Hin. congruence.
Qed.

Lemma toggleDay_range day prev :
  0 <= day <= 6 ->
  Forall (fun d => 0 <= d <= 6) prev ->
  Forall (fun d => 0 <= d <= 6) (AddMedicationModal.toggleDay day prev).
Proof.
  intros Hd H. unfold AddMedicationModal.toggleDay.
  destruct (includes prev day).
  - apply Forall_forall. intros x Hx. apply filter_In in Hx.
    rewrite Forall_forall in H. now apply H.
  - apply Forall_app. split; [exact H |]. constructor; [exact Hd | constructor].
Qed.

(** X8. Starting from the seven days the form opens with, whatever day
    buttons are pressed, the selection handed to the database never
    holds a day twice and holds only indices 0 to 6. *)
Theorem selection_stays_well_formed :
  forall days,
    Forall (fun d => 0 <= d <= 6) days ->
    NoDup (AddMedicationModal.press days AddMedicationModal.initialDays)
    /\ Forall (fun d => 0 <= d <= 6)
              (AddMedicationModal.press days AddMedicationModal.initialDays).
Proof.
  intros days Hdays.
  assert (Hinit : NoDup AddMedicationModal.initialDays
                  /\ Forall (fun d => 0 <= d <= 6)
                            AddMedicationModal.initialDays).
  { split.
    - repeat constructor; simpl; intuition lia.
    - repeat constructor; lia. }
  revert Hinit. generalize AddMedicationModal.initialDays as sel.
  induction Hdays as [| day days Hday Hrest IH]; intros sel [Hnd Hr]; simpl.
  - now split.
  - apply IH. split.
    + now apply toggleDay_NoDup.
    + now apply toggleDay_range.
Qed.

Lemma filter_out_absent day l :
  ~ In day l -> filter (fun d => negb (d =? day)) l = l.
Proof.
  induction l as [| e r IH]; simpl; intro H; [reflexivity |].
  destruct (Z.eqb_spec e day) as [-> | Hne]; simpl.
  - exfalso. apply H. now left.
  - f_equal. apply IH. intro Hin. apply H. now right.
Qed.

(** X9. Pressing the same day button twice restores the selection: the
    very list when the day was not selected, and, when it was and the
    list holds no day twice, the same days with that day moved to the
    end. *)
Theorem toggleDay_twice :
  forall day prev,
    (~ In day prev ->
     AddMedicationModal.toggleDay day (AddMedicationModal.toggleDay day prev)
     = prev)
    /\ (In day prev -> NoDup prev ->
        AddMedicationModal.toggleDay day
          (AddMedicationModal.toggleDay day prev)
        = filter (fun d => negb (d =? day)) prev ++ [day]
        /\ Permutation
             (AddMedicationModal.toggleDay day
                (AddMedicationModal.toggleDay day prev))
             prev).
Proof.
  intros day prev. split.
  - intro Hno.
    assert (E : includes prev day = false).
    { destruct (includes prev day) eqn:E; [| reflexivity].
      apply includes_In in E. contradiction. }
    unfold AddMedicationModal.toggleDay at 2. rewrite E.
    unfold AddMedicationModal.toggleDay.
    rewrite includes_app. simpl. rewrite Z.eqb_refl, orb_true_r.
    rewrite filter_app. simpl. rewrite Z.eqb_refl. simpl.
    rewrite app_nil_r. now apply filter_out_absent.
  - intros Hin Hnd.
    assert (E : includes prev day = true) by now apply includes_In.
    assert (Heq : AddMedicationModal.toggleDay day
                    (AddMedicationModal.toggleDay day prev)
                  = filter (fun d => negb (d =? day)) prev ++ [day]).
    { unfold AddMedicationModal.toggleDay at 2. rewrite E.
      unfold AddMedicationModal.toggleDay.
      now rewrite includes_filter_out, Z.eqb_refl, andb_false_r. }
    rewrite Heq. split; [reflexivity |].
    apply NoDup_Permutation.
    + apply Permutation_NoDup with
        (l := day :: filter (fun d => negb (d =? day)) prev).
      * apply Permutation_cons_append.
      * constructor; [| now apply NoDup_filter].
        intro H. apply filter_In in H. destruct H as [_ H].
        now rewrite Z.eqb_refl in H.
    + exact Hnd.
    + intro x. rewrite in_app_iff, filter_In. simpl. split.
      * intros [[Hx _] | [<- | []]]; assumption.
      * intro Hx. destruct (Z.eqb_spec x day) as [-> | Hne].
        -- right. now left.
        -- left. split; [exact Hx |].
           destruct (Z.eqb_spec x day); [contradiction | reflexivity].
Qed.

(** ** The weekly outlook *)

Lemma count_bump c day d :
  WeeklyOverview.count (WeeklyOverview.bump c day) d
  = WeeklyOverview.count c d + (if d =? day then 1 else 0).
Proof.
  unfold WeeklyOverview.count, WeeklyOverview.bump.
  destruct (Z.eqb_spec d day) as [-> | H]; [reflexivity | lia].
Qed.

Lemma count_bumps days :
  forall c d,
    WeeklyOverview.count (fold_left WeeklyOverview.bump days c) d
    = WeeklyOverview.count c d + Z.of_nat (count_occ Z.eq_dec days d).
Proof.
  induction days as [| day r IH]; intros c d; simpl.
  - lia.
  - rewrite IH, count_bump.
    destruct (Z.eq_dec day d) as [-> | Hne].
    + rewrite Z.eqb_refl. lia.
    + destruct (Z.eqb_spec d day); [congruence | lia].
Qed.

Lemma count_schedules ss :
  forall c d,
    WeeklyOverview.count
      (fold_left (fun counts s =>
                    fold_left WeeklyOverview.bump (Schedule.days_of_week s)
                              counts) ss c) d
    = WeeklyOverview.count c d
      + Z.of_nat (count_occ Z.eq_dec (flat_map Schedule.days_of_week ss) d).
Proof.
  induction ss as [| s r IH]; intros c d; simpl.
  - lia.
  - rewrite IH, count_bumps, count_occ_app. lia.
Qed.

Lemma scheduled_days_cons m r :
  scheduled_days (m :: r)
  = flat_map Schedule.days_of_week (filter Schedule.active (med_schedules m))
    ++ scheduled_days r.
Proof.
  unfold scheduled_days, pairs. simpl. rewrite flat_map_app. f_equal.
  induction (filter Schedule.active (med_schedules m)) as [| s l IH]; simpl.
  - reflexivity.
  - now rewrite IH.
Qed.

Lemma count_medications meds :
  forall c d,
    WeeklyOverview.count
      (fold_left
         (fun counts m =>
            fold_left
              (fun counts s =>
                 fold_left WeeklyOverview.bump (Schedule.days_of_week s)
                           counts)
              (filter Schedule.active (med_schedules m)) counts)
         meds c) d
    = WeeklyOverview.count c d
      + Z.of_nat (count_occ Z.eq_dec (scheduled_days meds) d).
Proof.
  induction meds as [| m r IH]; intros c d.
  - simpl. lia.
  - simpl fold_left. rewrite IH, count_schedules, scheduled_days_cons,
      count_occ_app. lia.
Qed.

Lemma count_is_occurrences meds d :
  WeeklyOverview.count (WeeklyOverview.weeklyMedicationCounts meds) d
  = Z.of_nat (count_occ Z.eq_dec (scheduled_days meds) d).
Proof.
  unfold WeeklyOverview.weeklyMedicationCounts.
  rewrite count_medications.
  unfold WeeklyOverview.count, WeeklyOverview.zeroes.
  destruct ((0 <=? d) && (d <=? 6)); lia.
Qed.

(** X10. The figure the weekly outlook shows for a day is the number of
    times that day occurs in the weekday lists of the active schedules
    of the medications listed; a day listed twice in one schedule counts
    twice, and an inactive schedule counts for nothing. *)
Theorem weekly_count_is_number_of_scheduled_days :
  forall meds d,
    WeeklyOverview.count (WeeklyOverview.weeklyMedicationCounts meds) d
    = Z.of_nat (count_occ Z.eq_dec (scheduled_days meds) d).
Proof. intros meds d. apply count_is_occurrences. Qed.

Lemma plan_shows_only_due tz now today rows s :
  includes (Schedule.days_of_week s) today = false ->
  plan tz now today rows s = Skip.
Proof. intro H. unfold plan. now rewrite H. Qed.

Lemma loop_length now today ps :
  forall acc w doses,
    snd (forEach ps (visit now today) acc w) = Ok doses ->
    (List.length doses
     <= List.length acc + List.length (filter (due today) ps))%nat.
Proof.
  induction ps as [| q ps IH]; intros acc w doses.
  - simpl. intro H. inversion H; subst. lia.
  - simpl forEach. unfold bind.
    change (visit now today q acc w)
      with (PatientDashboard.occurrence now today (fst q) (snd q) acc w).
    rewrite occurrence_plan. simpl filter. unfold due at 1.
    destruct (includes (Schedule.days_of_week (snd q)) today) eqn:Hd.
    + destruct (plan _ _ _ _ _) as [| | t l | t]; try discriminate;
        intro H; apply IH in H; rewrite ?length_app in H; simpl in *; lia.
    + rewrite (plan_shows_only_due _ _ _ _ _ Hd). apply IH.
Qed.

Lemma due_counted today ps :
  (List.length (filter (due today) ps)
   <= count_occ Z.eq_dec
        (flat_map (fun p => Schedule.days_of_week (snd p)) ps) today)%nat.
Proof.
  induction ps as [| p r IH]; simpl; [lia |].
  rewrite count_occ_app. unfold due at 1.
  destruct (includes (Schedule.days_of_week (snd p)) today) eqn:E; simpl.
  - apply includes_In in E.
    apply (count_occ_In Z.eq_dec) in E. lia.
  - lia.
Qed.

(** X11. After a load whose medications query is answered and that
    completes, the list of today's doses has at most five entries and
    never more than the weekly outlook shows for today: each entry
    stands for a different active schedule due today. *)
Theorem list_is_bounded_by_todays_outlook :
  forall now w,
    answers_next w ->
    (forall p, In p (pairs (active_medications (db w))) ->
               ~ unreadable (LocalTZA w) now (snd p)) ->
    let w' := fst (PatientDashboard.loadData now w) in
    (List.length (upcomingDoses (state w')) <= 5)%nat
    /\ Z.of_nat (List.length (upcomingDoses (state w')))
       <= WeeklyOverview.count
            (WeeklyOverview.weeklyMedicationCounts (medications (state w')))
            (getDay (LocalTZA w) now).
Proof.
  intros now w Hans Hread w'.
  destruct (loadData_settles now w) as (_ & _ & HM).
  specialize (HM Hans).
  fold w' in HM. rewrite HM, count_is_occurrences.
  subst w'.
  rewrite loadData_unfold. unfold answers_next in Hans. rewrite Hans.
  cbv zeta.
  set (meds := active_medications (db w)) in *.
  set (w0 := fst (setMedications meds (queried w))).
  pose proof (generate_completes now meds w0 Hread) as Hok.
  rewrite generate_unfold in Hok |- *.
  change (LocalTZA w0) with (LocalTZA w) in *.
  set (today := getDay (LocalTZA w) now) in *.
  pose proof (loop_length now today (pairs meds) [] w0) as HL.
  destruct (forEach (pairs meds) (visit now today) [] w0)
    as [w1 [doses | e]]; [| discriminate].
  specialize (HL doses eq_refl).
  unfold setUpcomingDoses, setLoading, modify_state.
  cbn [fst snd state upcomingDoses]. unfold slice0.
  pose proof (due_counted today (pairs meds)) as HC.
  fold (scheduled_days meds) in HC.
  pose proof (firstn_le_length 5 (sort PatientDashboard.by_time doses)) as H5.
  pose proof (length_firstn 5 (sort PatientDashboard.by_time doses)) as HF.
  pose proof (Permutation_length (sort_perm PatientDashboard.by_time doses))
    as HP.
  simpl in HL. split; lia.
Qed.

(** ** The caregiver's view of the patients *)

Lemma midnight_is_valid tz c :
  within_a_day tz ->
  Z.abs c <= 8640000000000000 - 3 * msPerDay ->
  setHours tz c (Some 0) (Some 0) = Some (UTC tz (wall_clock tz c 0 0)).
Proof.
  intros Hz H. apply setHours_in_range; auto; lia.
Qed.

Lemma patientsData_from_patients tz clock d cs :
  forall i ps,
    CaregiverDashboard.patientsData_from tz clock d i cs = Ok ps ->
    map CaregiverDashboard.patient ps = map CaregiverConnection.patient_id cs
    /\ map CaregiverDashboard.relationship ps
       = map CaregiverConnection.relationship cs.
Proof.
  induction cs as [| c r IH]; intros i ps; simpl.
  - intro H. inversion H; subst. split; reflexivity.
  - unfold CaregiverDashboard.patientData at 1.
    destruct (setHours tz (clock i) (Some 0) (Some 0)); [| discriminate].
    destruct (CaregiverDashboard.patientsData_from tz clock d (S i) r)
      as [qs | e] eqn:E; [| discriminate].
    intro H. inversion H; subst. simpl.
    destruct (IH (S i) qs E) as [H1 H2]. now rewrite H1, H2.
Qed.

Lemma patientsData_from_completes tz clock d cs :
  within_a_day tz ->
  (forall i, Z.abs (clock i) <= 8640000000000000 - 3 * msPerDay) ->
  forall i, exists ps,
    CaregiverDashboard.patientsData_from tz clock d i cs = Ok ps.
Proof.
  intros Hz Hclock. induction cs as [| c r IH]; intro i; simpl.
  - now exists [].
  - unfold CaregiverDashboard.patientData.
    rewrite (midnight_is_valid tz (clock i) Hz (Hclock i)).
    destruct (IH (S i)) as (ps & ->). eexists. reflexivity.
Qed.

(** X12. In a zone whose offsets are within a day of UTC and with the
    clock at least three days inside the range of valid dates, the
    caregiver's overview is computed without error and has one entry per
    connection of the signed-in caregiver, in the order of the
    connections, for that connection's patient and with its
    relationship; a patient with no connection to the caregiver is never
    listed. *)
Theorem overview_lists_the_connected_patients :
  forall tz clock d caregiver,
    within_a_day tz ->
    (forall i, Z.abs (clock i) <= 8640000000000000 - 3 * msPerDay) ->
    exists ps,
      CaregiverDashboard.patientsData tz clock d caregiver = Ok ps
      /\ map CaregiverDashboard.patient ps
         = map CaregiverConnection.patient_id
               (filter (fun c => String.eqb (CaregiverConnection.caregiver_id c)
                                            caregiver)
                       (Db.caregiver_connections d))
      /\ map CaregiverDashboard.relationship ps
         = map CaregiverConnection.relationship
               (filter (fun c => String.eqb (CaregiverConnection.caregiver_id c)
                                            caregiver)
                       (Db.caregiver_connections d)).
Proof.
  intros tz clock d caregiver Hz Hclock.
  unfold CaregiverDashboard.patientsData.
  destruct (patientsData_from_completes tz clock d
              (filter (fun c => String.eqb (CaregiverConnection.caregiver_id c)
                                           caregiver)
                      (Db.caregiver_connections d)) Hz Hclock 0%nat)
    as (ps & E).
  exists ps. split; [exact E |].
  now apply (patientsData_from_patients tz clock d _ 0%nat).
Qed.

Lemma belongs_to_with_dose_logs d rows id l :
  CaregiverDashboard.belongs_to (with_dose_logs d rows) id l
  = CaregiverDashboard.belongs_to d id l.
Proof. reflexivity. Qed.

(** X13. A patient's figures never count a dose log of a schedule that
    is not of one of the patient's medications, nor a dose log scheduled
    before today's local midnight, the instant [setHours(0, 0, 0, 0)]
    yields in the zone of the browser: with such rows added to
    [dose_logs] the entry computed for the patient is the same. *)
Theorem figures_ignore_foreign_and_earlier_logs :
  forall tz now d c extra today,
    setHours tz now (Some 0) (Some 0) = Some today ->
    (forall l, In l extra ->
               CaregiverDashboard.belongs_to
                 d (CaregiverConnection.patient_id c) l = false
               \/ DoseLog.scheduled_time l < today) ->
    CaregiverDashboard.patientData tz now
      (with_dose_logs d (Db.dose_logs d ++ extra)) c
    = CaregiverDashboard.patientData tz now d c.
Proof.
  intros tz now d c extra today Ht Hextra.
  unfold CaregiverDashboard.patientData. rewrite Ht.
  assert (Hsel : CaregiverDashboard.select_dose_logs
                   (with_dose_logs d (Db.dose_logs d ++ extra)) today
                   (CaregiverConnection.patient_id c)
                 = CaregiverDashboard.select_dose_logs d today
                     (CaregiverConnection.patient_id c)).
  { unfold CaregiverDashboard.select_dose_logs. simpl.
    rewrite filter_app.
    replace (filter _ extra) with (@nil DoseLog.t).
    - rewrite app_nil_r. reflexivity.
    - symmetry. apply filter_nil_iff. intros l Hl.
      rewrite belongs_to_with_dose_logs.
      destruct (Hextra l Hl) as [-> | Hlt].
      + apply andb_false_r.
      + destruct (Z.leb_spec today (DoseLog.scheduled_time l)); [lia |].
        reflexivity. }
  rewrite Hsel. reflexivity.
Qed.

(** ** From the patient's button to the caregiver's figure *)

Lemma logs_after_mark_taken dose log now later w :
  UpcomingDose.doseLog dose = Some log ->
  let w' := fst (PatientDashboard.markDoseTaken dose now later w) in
  Db.medications (db w') = Db.medications (db w)
  /\ Db.schedules (db w') = Db.schedules (db w)
  /\ exists extra,
      logs w'
      = map (fun l => if String.eqb (DoseLog.id l) (DoseLog.id log)
                      then mark_taken now l else l) (logs w)
        ++ extra
      /\ Forall fresh_row extra.
Proof.
  intros Hd w'. subst w'. unfold PatientDashboard.markDoseTaken. rewrite Hd.
  pose proof (update_then_reload_only_creates (DoseLog.id log)
                (mark_taken now) later
                (fun e => console_error "Error marking dose taken:" e) w
                (fun e => console_error_only_creates _ e))
    as (_ & HM & HS & _ & _ & _ & extra & HL & HF).
  split; [exact HM |]. split; [exact HS |].
  exists extra. split; [exact HL | exact HF].
Qed.

Lemma taken_after_update_one (g : DoseLog.t -> bool) id now :
  (forall l, g (mark_taken now l) = g l) ->
  forall rows l,
    NoDup (map DoseLog.id rows) ->
    In l rows -> DoseLog.id l = id ->
    DoseLog.status l <> taken -> g l = true ->
    List.length
      (filter is_taken
         (filter g (map (fun r => if String.eqb (DoseLog.id r) id
                                  then mark_taken now r else r) rows)))
    = S (List.length (filter is_taken (filter g rows))).
Proof.
  intros Hg rows l Hnd Hin Hid Hst Hgl.
  induction rows as [| a r IH]; [contradiction |].
  simpl in Hnd. inversion Hnd as [| ? ? Hnot Hnd']; subst.
  simpl map.
  destruct (String.eqb_spec (DoseLog.id a) (DoseLog.id l)) as [E | E].
  - assert (a = l).
    { destruct Hin as [-> | Hin]; [reflexivity |].
      exfalso. apply Hnot. rewrite E. now apply in_map. }
    subst a.
    assert (Hrest : map (fun r0 => if String.eqb (DoseLog.id r0) (DoseLog.id l)
                                   then mark_taken now r0 else r0) r = r).
    { rewrite <- (map_id r) at 2. apply map_ext_in. intros x Hx.
      destruct (String.eqb_spec (DoseLog.id x) (DoseLog.id l)) as [Ex | Ex];
        [| reflexivity].
      exfalso. apply Hnot. rewrite <- Ex. now apply in_map. }
    rewrite Hrest. cbn [filter]. rewrite Hg, Hgl. cbn [filter].
    assert (Hafter : is_taken (mark_taken now l) = true) by reflexivity.
    assert (Hbefore : is_taken l = false).
    { unfold is_taken. destruct (DoseLog.status l); try reflexivity.
      now elim Hst. }
    rewrite Hafter, Hbefore. reflexivity.
  - destruct Hin as [-> | Hin]; [now elim E |].
    cbn [filter]. destruct (g a); cbn [filter].
    + destruct (is_taken a); cbn [List.length]; rewrite (IH Hnd' Hin);
        reflexivity.
    + apply (IH Hnd' Hin).
Qed.

(** X14. When a patient marks a dose taken, and its row is the only one
    with that identifier, was not yet taken, and is one the caregiver's
    overview counts for the patient (scheduled today, of one of the
    patient's medications), the number of taken doses in the overview
    rises by exactly one; rows the reload creates meanwhile are pending
    and add nothing to it. *)
Theorem marking_taken_adds_one_to_the_overview :
  forall dose log now later w today patient l,
    UpcomingDose.doseLog dose = Some log ->
    NoDup (map DoseLog.id (logs w)) ->
    In l (logs w) ->
    DoseLog.id l = DoseLog.id log ->
    DoseLog.status l <> taken ->
    today <= DoseLog.scheduled_time l ->
    CaregiverDashboard.belongs_to (db w) patient l = true ->
    CaregiverDashboard.count_status taken
      (CaregiverDashboard.select_dose_logs
         (db (fst (PatientDashboard.markDoseTaken dose now later w)))
         today patient)
    = CaregiverDashboard.count_status taken
        (CaregiverDashboard.select_dose_logs (db w) today patient) + 1.
Proof.
  intros dose log now later w today patient l Hd Hnd Hin Hid Hst Htoday Hb.
  destruct (logs_after_mark_taken dose log now later w Hd)
    as (HM & HS & extra & HL & HF).
  set (w' := fst (PatientDashboard.markDoseTaken dose now later w)) in *.
  set (g := fun r => (today <=? DoseLog.scheduled_time r)
                     && CaregiverDashboard.belongs_to (db w) patient r).
  assert (Hsel' : CaregiverDashboard.select_dose_logs (db w') today patient
                  = filter g (logs w')).
  { unfold CaregiverDashboard.select_dose_logs, logs, g.
    apply filter_ext. intro r. f_equal.
    unfold CaregiverDashboard.belongs_to. now rewrite HM, HS. }
  rewrite Hsel'. unfold CaregiverDashboard.select_dose_logs at 1.
  fold g. fold (logs w).
  unfold CaregiverDashboard.count_status. fold is_taken.
  rewrite HL, !filter_app, length_app.
  assert (Hextra : filter is_taken (filter g extra) = []).
  { apply filter_nil_iff. intros r Hr. apply filter_In in Hr.
    destruct Hr as [Hr _]. rewrite Forall_forall in HF.
    destruct (HF r Hr) as [Hp _]. unfold is_taken. now rewrite Hp. }
  rewrite Hextra. simpl List.length.
  assert (Hgl : g l = true).
  { unfold g. apply andb_true_intro. split; [now apply Z.leb_le | exact Hb]. }
  rewrite (taken_after_update_one g (DoseLog.id log) now
             (fun r => eq_refl) (logs w) l Hnd Hin Hid Hst Hgl).
  lia.
Qed.

(** ** The patient's caregiver list and the caregiver's overview *)

Lemma patientData_same_tables tz now d d' c :
  Db.medications d' = Db.medications d ->
  Db.schedules d' = Db.schedules d ->
  Db.dose_logs d' = Db.dose_logs d ->
  CaregiverDashboard.patientData tz now d' c
  = CaregiverDashboard.patientData tz now d c.
Proof.
  intros HM HS HL.
  unfold CaregiverDashboard.patientData, CaregiverDashboard.select_dose_logs,
    CaregiverDashboard.select_medications, CaregiverDashboard.belongs_to.
  now rewrite HM, HS, HL.
Qed.

Lemma patientsData_from_same_tables tz clock d d' cs :
  Db.medications d' = Db.medications d ->
  Db.schedules d' = Db.schedules d ->
  Db.dose_logs d' = Db.dose_logs d ->
  forall i,
    CaregiverDashboard.patientsData_from tz clock d' i cs
    = CaregiverDashboard.patientsData_from tz clock d i cs.
Proof.
  intros HM HS HL. induction cs as [| c r IH]; intro i; simpl.
  - reflexivity.
  - rewrite (patientData_same_tables tz (clock i) d d' c HM HS HL).
    now rewrite IH.
Qed.

(** X15. Once the patient has removed a caregiver, that caregiver's
    overview no longer lists the patient (a patient and a caregiver
    share at most one connection, as the table's uniqueness constraint
    has it); and the overview of a caregiver none of whose connections
    carries the removed identifier is what it was. *)
Theorem removed_caregiver_no_longer_sees_the_patient :
  forall tz clock d profile c,
    In c (Db.caregiver_connections d) ->
    (forall c', In c' (Db.caregiver_connections d) ->
                CaregiverConnection.patient_id c'
                = CaregiverConnection.patient_id c ->
                CaregiverConnection.caregiver_id c'
                = CaregiverConnection.caregiver_id c ->
                CaregiverConnection.id c' = CaregiverConnection.id c) ->
    let d' := CaregiversPanel.handleRemoveCaregiver
                (Some profile) (CaregiverConnection.id c) d in
    (forall ps,
        CaregiverDashboard.patientsData tz clock d'
          (CaregiverConnection.caregiver_id c) = Ok ps ->
        ~ In (CaregiverConnection.patient_id c)
             (map CaregiverDashboard.patient ps))
    /\ (forall other,
           (forall c', In c' (Db.caregiver_connections d) ->
                       CaregiverConnection.id c' = CaregiverConnection.id c ->
                       CaregiverConnection.caregiver_id c' <> other) ->
           CaregiverDashboard.patientsData tz clock d' other
           = CaregiverDashboard.patientsData tz clock d other).
Proof.
  intros tz clock d profile c Hc Huniq d'. split.
  - intros ps Hps Hin.
    unfold CaregiverDashboard.patientsData in Hps.
    apply patientsData_from_patients in Hps. destruct Hps as [Hp _].
    rewrite Hp in Hin. apply in_map_iff in Hin.
    destruct Hin as (c' & Hpat & Hc').
    apply filter_In in Hc'. destruct Hc' as [Hc' Hcg].
    apply String.eqb_eq in Hcg.
    subst d'. simpl in Hc'. apply filter_In in Hc'. destruct Hc' as [Hc' Hid].
    apply negb_true_iff in Hid. apply String.eqb_neq in Hid.
    apply Hid. now apply Huniq.
  - intros other Hother. unfold CaregiverDashboard.patientsData.
    rewrite (patientsData_from_same_tables tz clock d d') by reflexivity.
    f_equal. subst d'. simpl. clear Hc Huniq. revert Hother.
    generalize (Db.caregiver_connections d) as conns.
    induction conns as [| a r IH]; intro Hother; [reflexivity |].
    simpl.
    destruct (String.eqb_spec (CaregiverConnection.id a)
                              (CaregiverConnection.id c)) as [E | E]; simpl.
    + destruct (String.eqb_spec (CaregiverConnection.caregiver_id a) other)
        as [E' | E'].
      * exfalso. apply (Hother a); [now left | exact E | exact E'].
      * apply IH. intros c' Hc'. apply Hother. now right.
    + destruct (String.eqb (CaregiverConnection.caregiver_id a) other).
      * f_equal. apply IH. intros c' Hc'. apply Hother. now right.
      * apply IH. intros c' Hc'. apply Hother. now right.
Qed.

Lemma patientsData_from_map tz clock d f cs :
  (forall c, CaregiverConnection.patient_id (f c)
             = CaregiverConnection.patient_id c) ->
  (forall c, CaregiverConnection.relationship (f c)
             = CaregiverConnection.relationship c) ->
  forall i,
    CaregiverDashboard.patientsData_from tz clock d i (map f cs)
    = CaregiverDashboard.patientsData_from tz clock d i cs.
Proof.
  intros Hp Hr. induction cs as [| c r IH]; intro i; simpl.
  - reflexivity.
  - unfold CaregiverDashboard.patientData. rewrite Hp, Hr, IH. reflexivity.
Qed.

Lemma filter_map_commute {A} (p : A -> bool) (f : A -> A) l :
  (forall x, p (f x) = p x) -> filter p (map f l) = map f (filter p l).
Proof.
  intro H. induction l as [| x r IH]; simpl; [reflexivity |].
  rewrite H. destruct (p x); simpl; now rewrite IH.
Qed.

(** X16. The alerts switch writes the opposite of the value the list
    showed when it was pressed, not the opposite of the value stored:
    pressed again on a list that was not refreshed it writes the same
    value once more. And whatever it writes, every caregiver's overview
    is what it was. *)
Theorem alerts_switch_writes_opposite_of_value_shown :
  forall profile connectionId shown d,
    let d' := CaregiversPanel.handleToggleCaregiverNotifications
                (Some profile) connectionId shown d in
    (forall c, In c (Db.caregiver_connections d') ->
               CaregiverConnection.id c = connectionId ->
               CaregiverConnection.notify_missed_doses c = negb shown)
    /\ Db.caregiver_connections
         (CaregiversPanel.handleToggleCaregiverNotifications
            (Some profile) connectionId shown d')
       = Db.caregiver_connections d'
    /\ (forall tz clock caregiver,
           CaregiverDashboard.patientsData tz clock d' caregiver
           = CaregiverDashboard.patientsData tz clock d caregiver).
Proof.
  intros profile connectionId shown d d'. split; [| split].
  - intros c Hc Hid. subst d'. simpl in Hc. apply in_map_iff in Hc.
    destruct Hc as (c0 & Hc0 & _).
    destruct (String.eqb_spec (CaregiverConnection.id c0) connectionId)
      as [E | E]; subst c; [reflexivity | contradiction].
  - subst d'. simpl. rewrite map_map. apply map_ext. intro c.
    destruct (String.eqb_spec (CaregiverConnection.id c) connectionId)
      as [E | E]; simpl.
    + rewrite E, String.eqb_refl. reflexivity.
    + destruct (String.eqb_spec (CaregiverConnection.id c) connectionId);
        [contradiction | reflexivity].
  - intros tz clock caregiver. unfold CaregiverDashboard.patientsData.
    rewrite (patientsData_from_same_tables tz clock d d') by reflexivity.
    subst d'. simpl.
    rewrite filter_map_commute.
    + apply patientsData_from_map; intro c;
        destruct (String.eqb (CaregiverConnection.id c) connectionId);
        reflexivity.
    + intro c. destruct (String.eqb (CaregiverConnection.id c) connectionId);
        reflexivity.
Qed.

(** ** The caregiver's alerts *)

Section SortByKey.
Context {A : Type} (cmp : A -> A -> Z) (k : A -> Z).
Hypothesis cmp_key : forall a b, (cmp a b <=? 0) = (k a <=? k b).

Lemma map_key_sort_insert x l :
  map k (sort_insert cmp x l) = sort_insert Z.sub (k x) (map k l).
Proof.
  induction l as [| y r IH]; simpl; [reflexivity |].
  rewrite cmp_key.
  destruct (Z.leb_spec (k x) (k y)), (Z.leb_spec (k x - k y) 0);
    try lia; simpl; [reflexivity | now rewrite IH].
Qed.

Lemma map_key_sort l : map k (sort cmp l) = sort Z.sub (map k l).
Proof.
  induction l as [| x r IH]; simpl; [reflexivity |].
  now rewrite map_key_sort_insert, IH.
Qed.

Lemma sort_by_key_ascending l : ascending (map k (sort cmp l)).
Proof. rewrite map_key_sort. apply sort_ascending. Qed.

Lemma sort_insert_below_all x l :
  (forall y, In y l -> k x <= k y) -> sort_insert cmp x l = x :: l.
Proof.
  destruct l as [| y r]; simpl; [reflexivity |].
  intro H. rewrite cmp_key.
  destruct (Z.leb_spec (k x) (k y)); [reflexivity |].
  specialize (H y (or_introl eq_refl)). lia.
Qed.

Lemma filter_sort_insert_kept f x l :
  ascending (map k l) -> f x = true ->
  filter f (sort_insert cmp x l) = sort_insert cmp x (filter f l).
Proof.
  intros Hs Hx. induction l as [| y r IH]; simpl.
  - now rewrite Hx.
  - inversion Hs as [| ? ? Hy Hr]; subst.
    rewrite cmp_key. destruct (Z.leb_spec (k x) (k y)) as [Hle | Hgt].
    + simpl. rewrite Hx. destruct (f y) eqn:Hfy.
      * simpl. rewrite cmp_key.
        destruct (Z.leb_spec (k x) (k y)); [reflexivity | lia].
      * symmetry. apply sort_insert_below_all.
        intros z Hz. apply filter_In in Hz. destruct Hz as [Hz _].
        specialize (Hy (k z) (in_map k r z Hz)). lia.
    + simpl. rewrite (IH Hr). destruct (f y) eqn:Hfy; [| reflexivity].
      simpl. rewrite cmp_key.
      destruct (Z.leb_spec (k x) (k y)); [lia | reflexivity].
Qed.

Lemma filter_sort_insert_dropped f x l :
  f x = false -> filter f (sort_insert cmp x l) = filter f l.
Proof.
  intro Hx. induction l as [| y r IH]; simpl.
  - now rewrite Hx.
  - destruct (cmp x y <=? 0); simpl.
    + now rewrite Hx.
    + now rewrite IH.
Qed.

Lemma sort_filter f l : sort cmp (filter f l) = filter f (sort cmp l).
Proof.
  induction l as [| x r IH]; simpl; [reflexivity |].
  destruct (f x) eqn:Hx.
  - simpl. rewrite IH. symmetry.
    apply filter_sort_insert_kept; [apply sort_by_key_ascending | exact Hx].
  - rewrite IH. symmetry. now apply filter_sort_insert_dropped.
Qed.
End SortByKey.

Lemma firstn_grows {A} (x : A) n l : In x (firstn n l) -> In x (firstn (S n) l).
Proof.
  revert n. induction l as [| y r IH]; intros [| n]; simpl; try contradiction.
  intros [-> | H]; [now left | right]. now apply IH.
Qed.

Lemma firstn_filter_keeps {A} (f : A -> bool) (x : A) n l :
  In x (firstn n l) -> f x = true -> In x (firstn n (filter f l)).
Proof.
  revert n. induction l as [| y r IH]; intros [| n]; simpl; try contradiction.
  intros [-> | H] Hx.
  - rewrite Hx. now left.
  - destruct (f y).
    + right. now apply IH.
    + apply firstn_grows. now apply IH.
Qed.

Lemma alert_order_key (a b : Alert.t) :
  (Alert.sent_at b - Alert.sent_at a <=? 0)
  = (- Alert.sent_at a <=? - Alert.sent_at b).
Proof.
  destruct (Z.leb_spec (Alert.sent_at b - Alert.sent_at a) 0),
    (Z.leb_spec (- Alert.sent_at a) (- Alert.sent_at b));
    try reflexivity; lia.
Qed.

(** X17. The alert list of a caregiver has at most ten entries, newest
    first; each is a stored alert addressed to that caregiver, not yet
    read, whose dose log and schedule exist. *)
Theorem alert_list_is_ten_newest_unread :
  forall d alerts caregiver,
    (List.length (CaregiverAlerts.alertsData d alerts caregiver) <= 10)%nat
    /\ newest_first (CaregiverAlerts.alertsData d alerts caregiver)
    /\ forall a, In a (CaregiverAlerts.alertsData d alerts caregiver) ->
                 In a alerts
                 /\ Alert.caregiver_id a = caregiver
                 /\ Alert.read_at a = None
                 /\ CaregiverAlerts.joined d a = true.
Proof.
  intros d alerts caregiver. unfold CaregiverAlerts.alertsData.
  split; [apply firstn_le_length |]. split.
  - unfold newest_first. rewrite <- firstn_map. apply ascending_firstn.
    apply (sort_by_key_ascending _ (fun a => - Alert.sent_at a)).
    intros a b. apply alert_order_key.
  - intros a Ha. apply In_firstn in Ha.
    apply (Permutation_in _ (sort_perm _ _)) in Ha.
    apply filter_In in Ha. destruct Ha as [Ha Hu].
    unfold CaregiverAlerts.unread_for in Hu.
    apply andb_prop in Hu. destruct Hu as [Hu Hj].
    apply andb_prop in Hu. destruct Hu as [Hc Hr].
    apply String.eqb_eq in Hc.
    destruct (Alert.read_at a); [discriminate | auto].
Qed.

Lemma unread_after_mark d caregiver alertId now alerts :
  filter (CaregiverAlerts.unread_for d caregiver)
         (CaregiverAlerts.markAlertRead alertId now alerts)
  = filter (fun a => negb (String.eqb (Alert.id a) alertId))
           (filter (CaregiverAlerts.unread_for d caregiver) alerts).
Proof.
  unfold CaregiverAlerts.markAlertRead.
  induction alerts as [| a r IH]; simpl; [reflexivity |].
  destruct (String.eqb_spec (Alert.id a) alertId) as [E | E].
  - unfold CaregiverAlerts.unread_for at 1. simpl.
    rewrite andb_false_r. simpl. rewrite IH.
    destruct (CaregiverAlerts.unread_for d caregiver a); [| reflexivity].
    simpl. destruct (String.eqb_spec (Alert.id a) alertId);
      [reflexivity | contradiction].
  - rewrite IH.
    destruct (CaregiverAlerts.unread_for d caregiver a); [| reflexivity].
    simpl. destruct (String.eqb_spec (Alert.id a) alertId);
      [contradiction | reflexivity].
Qed.

(** X18. Dismissing an alert takes it off every caregiver's list, and
    takes nothing else off: an alert with another identifier that was
    listed is still listed after the write. *)
Theorem dismissing_an_alert_removes_it_alone :
  forall d alerts caregiver alertId now,
    (forall a, In a (CaregiverAlerts.alertsData d
                       (CaregiverAlerts.markAlertRead alertId now alerts)
                       caregiver) ->
               Alert.id a <> alertId)
    /\ (forall a, In a (CaregiverAlerts.alertsData d alerts caregiver) ->
                  Alert.id a <> alertId ->
                  In a (CaregiverAlerts.alertsData d
                          (CaregiverAlerts.markAlertRead alertId now alerts)
                          caregiver)).
Proof.
  intros d alerts caregiver alertId now.
  unfold CaregiverAlerts.alertsData. rewrite unread_after_mark. split.
  - intros a Ha. apply In_firstn in Ha.
    apply (Permutation_in _ (sort_perm _ _)) in Ha.
    apply filter_In in Ha. destruct Ha as [_ Ha].
    apply negb_true_iff in Ha. now apply String.eqb_neq.
  - intros a Ha Hid.
    rewrite (sort_filter _ (fun a => - Alert.sent_at a))
      by (intros x y; apply alert_order_key).
    apply firstn_filter_keeps; [exact Ha |].
    apply negb_true_iff. now apply String.eqb_neq.
Qed.

(** ** Adding a medication *)

Lemma handleSubmit_accepted user name dosage instructions time days read_time
      created_at now w t :
  read_time time = Some t ->
  let d := db w in
  let m := {| Medication.id := Db.gen_random_uuid d (Db.uuid_calls d);
              Medication.patient_id := user;
              Medication.name := name;
              Medication.dosage := dosage;
              Medication.instructions := instructions;
              Medication.active := true;
              Medication.created_at := created_at |} in
  let s := {| Schedule.id := Db.gen_random_uuid d (S (Db.uuid_calls d));
              Schedule.medication_id := Medication.id m;
              Schedule.time := t;
              Schedule.days_of_week := days;
              Schedule.active := true |} in
  let w2 := {| LocalTZA := LocalTZA w;
               db := {| Db.medications := Db.medications d ++ [m];
                        Db.schedules := Db.schedules d ++ [s];
                        Db.dose_logs := Db.dose_logs d;
                        Db.caregiver_connections := Db.caregiver_connections d;
                        Db.gen_random_uuid := Db.gen_random_uuid d;
                        Db.uuid_calls := S (S (Db.uuid_calls d));
                        Db.refuses := Db.refuses d;
                        Db.requests := Db.requests d |};
               state := state w; console := console w |} in
  AddMedicationModal.handleSubmit (Some user) name dosage instructions time
    days read_time created_at now w
  = PatientDashboard.loadData now w2.
Proof.
  intros Ht d m s w2.
  unfold AddMedicationModal.handleSubmit, try_catch, bind,
    AddMedicationModal.insert_medication, AddMedicationModal.insert_schedule.
  cbv beta iota zeta.
  destruct (read_time time) as [t' |] eqn:E; [| discriminate].
  inversion Ht; subst t'; clear Ht.
  match goal with
  | |- context [AddMedicationModal.medication_exists ?a ?b] =>
      replace (AddMedicationModal.medication_exists a b) with true
  end.
  - cbv beta iota zeta. cbn [db Db.medications Db.schedules Db.dose_logs
                             Db.caregiver_connections Db.gen_random_uuid
                             Db.uuid_calls Medication.id LocalTZA
                             state console].
    match goal with
    | |- context [PatientDashboard.loadData now ?x] => change x with w2
    end.
    pose proof (loadData_settles now w2) as (Hok & _).
    destruct (PatientDashboard.loadData now w2) as [w3 r3].
    simpl in Hok. subst r3. reflexivity.
  - symmetry. unfold AddMedicationModal.medication_exists.
    cbn [db Db.medications Medication.id].
    rewrite existsb_app. cbn [existsb Medication.id].
    now rewrite String.eqb_refl, orb_true_r.
Qed.

(** X19. A medication submitted by a signed-in user with a time the
    database accepts is stored with one schedule carrying that time and
    the selected days, and after the reload that follows, its
    medications query being answered, it stands in the component's
    medication list with exactly that schedule (provided the identifier
    drawn for it is not already the medication of some schedule). *)
Theorem added_medication_is_listed_with_its_schedule :
  forall user name dosage instructions time days read_time created_at now w t,
    read_time time = Some t ->
    answers_next w ->
    (forall s, In s (Db.schedules (db w)) ->
               Schedule.medication_id s
               <> Db.gen_random_uuid (db w) (Db.uuid_calls (db w))) ->
    In {| med := {| Medication.id :=
                      Db.gen_random_uuid (db w) (Db.uuid_calls (db w));
                    Medication.patient_id := user;
                    Medication.name := name;
                    Medication.dosage := dosage;
                    Medication.instructions := instructions;
                    Medication.active := true;
                    Medication.created_at := created_at |};
          med_schedules :=
            [{| Schedule.id :=
                  Db.gen_random_uuid (db w) (S (Db.uuid_calls (db w)));
                Schedule.medication_id :=
                  Db.gen_random_uuid (db w) (Db.uuid_calls (db w));
                Schedule.time := t;
                Schedule.days_of_week := days;
                Schedule.active := true |}] |}
       (medications
          (state (fst (AddMedicationModal.handleSubmit (Some user) name dosage
                         instructions time days read_time created_at now w)))).
Proof.
  intros user name dosage instructions time days read_time created_at now w t
         Ht Hans Hfresh.
  rewrite (handleSubmit_accepted user name dosage instructions time days
             read_time created_at now w t Ht).
  cbv zeta.
  match goal with |- context [PatientDashboard.loadData now ?x] =>
    set (w2 := x) end.
  destruct (loadData_settles now w2) as (_ & _ & HM).
  rewrite (HM Hans).
  unfold active_medications.
  match goal with |- In {| med := ?x; med_schedules := _ |} _ =>
    set (m := x) end.
  apply in_map_iff. exists m. split.
  - f_equal. subst w2. cbn [db Db.schedules]. rewrite filter_app.
    replace (filter _ (Db.schedules (db w))) with (@nil Schedule.t).
    + simpl. subst m. cbn [Medication.id]. now rewrite String.eqb_refl.
    + symmetry. apply filter_nil_iff. intros s Hs.
      apply String.eqb_neq. subst m. cbn [Medication.id]. now apply Hfresh.
  - eapply Permutation_in; [apply Permutation_sym, sort_perm |].
    apply filter_In. split; [| reflexivity].
    subst w2. cbn [db Db.medications]. apply in_or_app. right. now left.
Qed.

(** X20. When the database refuses the time, the medication inserted
    just before stays in the table without any schedule: the schedules
    are untouched, one line goes to the console, and the dashboard is
    not reloaded (its state is what it was). *)
Theorem refused_time_leaves_medication_without_schedule :
  forall user name dosage instructions time days read_time created_at now w,
    read_time time = None ->
    let w' := fst (AddMedicationModal.handleSubmit (Some user) name dosage
                     instructions time days read_time created_at now w) in
    Db.medications (db w')
    = Db.medications (db w)
        ++ [{| Medication.id :=
                 Db.gen_random_uuid (db w) (Db.uuid_calls (db w));
               Medication.patient_id := user;
               Medication.name := name;
               Medication.dosage := dosage;
               Medication.instructions := instructions;
               Medication.active := true;
               Medication.created_at := created_at |}]
    /\ Db.schedules (db w') = Db.schedules (db w)
    /\ Db.dose_logs (db w') = Db.dose_logs (db w)
    /\ state w' = state w
    /\ console w'
       = console w
           ++ ["Error adding medication: invalid input syntax for type time"].
Proof.
  intros user name dosage instructions time days read_time created_at now w
         Ht w'. subst w'.
  unfold AddMedicationModal.handleSubmit, try_catch, bind,
    AddMedicationModal.insert_medication, AddMedicationModal.insert_schedule.
  cbv beta iota zeta.
  destruct (read_time time) as [t' |] eqn:E; [discriminate |].
  simpl. repeat split; reflexivity.
Qed.

(** ** The further facts at the sample data *)

Lemma sample_is_readable :
  forall p,
    In p (pairs (active_medications (db (Sample.world [])))) ->
    ~ unreadable (LocalTZA (Sample.world [])) Sample.at_0730 (snd p).
Proof.
  intros p Hp [Hday Hbad].
  simpl in Hp. destruct Hp as [<- | [<- | []]].
  - specialize (Hbad Sample.at_0800 eq_refl). discriminate.
  - discriminate.
Defined.

Lemma loadData_always_settles_witness :
  medications
    (state (fst (PatientDashboard.loadData Sample.at_0730 Sample2.offline)))
  = medications (state Sample2.offline)
  /\ upcomingDoses
       (state (fst (PatientDashboard.loadData Sample.at_0730 Sample2.offline)))
     = upcomingDoses (state Sample2.offline)
  /\ logs (fst (PatientDashboard.loadData Sample.at_0730 Sample2.offline))
     = logs Sample2.offline
  /\ console (fst (PatientDashboard.loadData Sample.at_0730 Sample2.offline))
     = console Sample2.offline
         ++ ["Error loading data: TypeError: Failed to fetch"].
Proof.
  apply (proj2 (proj2 (proj2
           (loadData_always_settles Sample.at_0730 Sample2.offline)))
           "TypeError: Failed to fetch").
  reflexivity.
Defined.

Lemma unreadable_time_aborts_load_witness :
  console (fst (PatientDashboard.loadData Sample.at_0730
                  Sample2.garbled_world))
  = [load_error_line]
  /\ upcomingDoses
       (state (fst (PatientDashboard.loadData Sample.at_0730
                      Sample2.garbled_world))) = [].
Proof.
  apply (unreadable_time_aborts_load Sample.at_0730 Sample2.garbled_world
           Sample2.garbled_entry).
  - reflexivity.
  - simpl. right. left. reflexivity.
  - split; [reflexivity |]. intros t Ht. discriminate.
Defined.

Lemma flaky_is_readable :
  forall p,
    In p (pairs (active_medications (db Sample2.flaky))) ->
    ~ unreadable (LocalTZA Sample2.flaky) Sample.at_0730 (snd p).
Proof. exact sample_is_readable. Defined.

Lemma loaded_entries_have_rows_unless_refused_witness :
  map UpcomingDose.doseLog
      (upcomingDoses
         (state (fst (PatientDashboard.loadData Sample.at_0730
                        Sample2.flaky))))
  = [None]
  /\ Forall (fun d => backed (fst (PatientDashboard.loadData Sample.at_0730
                                     Sample2.flaky)) d
                      \/ without_log d)
            (upcomingDoses
               (state (fst (PatientDashboard.loadData Sample.at_0730
                              Sample2.flaky)))).
Proof.
  split; [vm_compute; reflexivity |].
  apply (loaded_entries_have_rows_unless_refused Sample.at_0730 Sample2.flaky).
  - reflexivity.
  - exact flaky_is_readable.
Defined.

Lemma mark_leaves_other_rows_witness :
  nth_error
    (logs (fst (PatientDashboard.markDoseTaken Sample.shown_pending
                  Sample.at_0735 Sample.at_0736
                  (Sample.world [Sample.row "log-0" pending None;
                                 Sample.row "log-1" pending None]))))
    1
  = Some (Sample.row "log-1" pending None).
Proof.
  apply (mark_leaves_other_rows Sample.shown_pending
           (Sample.row "log-0" pending None) Sample.at_0735 Sample.at_0736
           (Sample.world [Sample.row "log-0" pending None;
                          Sample.row "log-1" pending None])
           1%nat (Sample.row "log-1" pending None)).
  - reflexivity.
  - reflexivity.
  - discriminate.
Defined.

Lemma eastern_time_within_a_day : within_a_day NewYork.zone.
Proof.
  intros t isUTC. unfold NewYork.zone.
  destruct isUTC;
    match goal with |- context [if ?c then _ else _] => destruct c end;
    vm_compute; discriminate.
Defined.

Lemma time_text_is_read_as_todays_wall_clock_time_witness :
  exists t,
    PatientDashboard.scheduledTimeOf NewYork.zone NewYork.at_0130 NewYork.night
    = Some t
    /\ LocalTime NewYork.zone t
       = Day (LocalTime NewYork.zone NewYork.at_0130) * msPerDay
         + 3 * msPerHour + 15 * msPerMinute
    /\ Day (LocalTime NewYork.zone t)
       = Day (LocalTime NewYork.zone NewYork.at_0130)
    /\ getDay NewYork.zone t = getDay NewYork.zone NewYork.at_0130.
Proof.
  destruct (time_text_is_read_as_todays_wall_clock_time NewYork.zone
              NewYork.at_0130 NewYork.night 3 15 ":00")
    as (t & Ht & Heq & Hreads).
  - lia.
  - lia.
  - right. exists "00". reflexivity.
  - reflexivity.
  - exact eastern_time_within_a_day.
  - vm_compute. discriminate.
  - exists t. split; [exact Ht |]. apply Hreads. rewrite Heq. reflexivity.
Defined.

Lemma time_without_colon_is_invalid_witness :
  PatientDashboard.scheduledTimeOf NewYork.zone Sample.at_0730 Sample2.garbled
  = None.
Proof.
  apply (time_without_colon_is_invalid NewYork.zone Sample.at_0730
           Sample2.garbled).
  simpl. intuition discriminate.
Defined.

Lemma selection_stays_well_formed_witness :
  NoDup (AddMedicationModal.press [1; 1; 3] AddMedicationModal.initialDays)
  /\ Forall (fun d => 0 <= d <= 6)
            (AddMedicationModal.press [1; 1; 3]
               AddMedicationModal.initialDays).
Proof.
  apply (selection_stays_well_formed [1; 1; 3]).
  repeat constructor; lia.
Defined.

Lemma toggleDay_twice_witness :
  AddMedicationModal.toggleDay 1 (AddMedicationModal.toggleDay 1 [0; 1; 2])
  = [0; 2; 1]
  /\ Permutation
       (AddMedicationModal.toggleDay 1
          (AddMedicationModal.toggleDay 1 [0; 1; 2]))
       [0; 1; 2].
Proof.
  apply (proj2 (toggleDay_twice 1 [0; 1; 2])).
  - simpl. right. left. reflexivity.
  - repeat constructor; simpl; intuition lia.
Defined.

Lemma list_is_bounded_by_todays_outlook_witness :
  (List.length
     (upcomingDoses
        (state (fst (PatientDashboard.loadData Sample.at_0730
                       (Sample.world []))))) <= 5)%nat
  /\ Z.of_nat
       (List.length
          (upcomingDoses
             (state (fst (PatientDashboard.loadData Sample.at_0730
                            (Sample.world []))))))
     <= WeeklyOverview.count
          (WeeklyOverview.weeklyMedicationCounts
             (medications
                (state (fst (PatientDashboard.loadData Sample.at_0730
                               (Sample.world []))))))
          (getDay (LocalTZA (Sample.world [])) Sample.at_0730).
Proof.
  apply (list_is_bounded_by_todays_outlook Sample.at_0730 (Sample.world [])
           eq_refl sample_is_readable).
Defined.

Lemma sample_clock_in_range :
  forall i : nat, Z.abs NewYork.at_noon <= 8640000000000000 - 3 * msPerDay.
Proof. intro i. vm_compute. discriminate. Defined.

Lemma overview_lists_the_connected_patients_witness :
  exists ps,
    CaregiverDashboard.patientsData NewYork.zone (fun _ => NewYork.at_noon)
      Sample.busy_day "g1" = Ok ps
    /\ map CaregiverDashboard.patient ps
       = map CaregiverConnection.patient_id
             (filter (fun c => String.eqb (CaregiverConnection.caregiver_id c)
                                          "g1")
                     (Db.caregiver_connections Sample.busy_day))
    /\ map CaregiverDashboard.relationship ps
       = map CaregiverConnection.relationship
             (filter (fun c => String.eqb (CaregiverConnection.caregiver_id c)
                                          "g1")
                     (Db.caregiver_connections Sample.busy_day)).
Proof.
  apply (overview_lists_the_connected_patients NewYork.zone
           (fun _ => NewYork.at_noon) Sample.busy_day "g1"
           eastern_time_within_a_day sample_clock_in_range).
Defined.

Lemma figures_ignore_foreign_and_earlier_logs_witness :
  CaregiverDashboard.patientData NewYork.zone NewYork.at_noon
    (with_dose_logs Sample.busy_day
       (Db.dose_logs Sample.busy_day
        ++ [DoseLog.mk "x" "s9" NewYork.at_noon None missed "";
            DoseLog.mk "y" "s1" (NewYork.midnight - 1) None missed ""]))
    Sample2.connection
  = CaregiverDashboard.patientData NewYork.zone NewYork.at_noon
      Sample.busy_day Sample2.connection.
Proof.
  apply (figures_ignore_foreign_and_earlier_logs NewYork.zone NewYork.at_noon
           Sample.busy_day Sample2.connection
           [DoseLog.mk "x" "s9" NewYork.at_noon None missed "";
            DoseLog.mk "y" "s1" (NewYork.midnight - 1) None missed ""]
           NewYork.midnight).
  - reflexivity.
  - intros l [<- | [<- | []]].
    + left. reflexivity.
    + right. reflexivity.
Defined.

Lemma marking_taken_adds_one_to_the_overview_witness :
  CaregiverDashboard.count_status taken
    (CaregiverDashboard.select_dose_logs
       (db (fst (PatientDashboard.markDoseTaken Sample.shown_pending
                   Sample.at_0735 Sample.at_0736
                   (Sample.world [Sample.row "log-0" pending None]))))
       1760918400000 "p1")
  = CaregiverDashboard.count_status taken
      (CaregiverDashboard.select_dose_logs
         (db (Sample.world [Sample.row "log-0" pending None]))
         1760918400000 "p1") + 1.
Proof.
  apply (marking_taken_adds_one_to_the_overview Sample.shown_pending
           (Sample.row "log-0" pending None) Sample.at_0735 Sample.at_0736
           (Sample.world [Sample.row "log-0" pending None])
           1760918400000 "p1" (Sample.row "log-0" pending None)).
  - reflexivity.
  - repeat constructor. simpl. tauto.
  - left. reflexivity.
  - reflexivity.
  - discriminate.
  - vm_compute. discriminate.
  - reflexivity.
Defined.

Lemma removed_caregiver_no_longer_sees_the_patient_witness :
  CaregiverDashboard.patientsData Sample.utc (fun _ => Sample.at_0730)
    (CaregiversPanel.handleRemoveCaregiver (Some "p1") "c1" Sample.busy_day)
    "g2"
  = CaregiverDashboard.patientsData Sample.utc (fun _ => Sample.at_0730)
      Sample.busy_day "g2".
Proof.
  apply (removed_caregiver_no_longer_sees_the_patient Sample.utc
           (fun _ => Sample.at_0730) Sample.busy_day "p1" Sample2.connection).
  - left. reflexivity.
  - intros c' [<- | []] _ _. reflexivity.
  - intros c' [<- | []] _. discriminate.
Defined.

Lemma alerts_switch_writes_opposite_of_value_shown_witness :
  CaregiverConnection.notify_missed_doses
    (CaregiverConnection.mk "c1" "p1" "g1" "daughter" false)
  = negb true.
Proof.
  apply (proj1 (alerts_switch_writes_opposite_of_value_shown
                  "p1" "c1" true Sample.busy_day)).
  - left. reflexivity.
  - reflexivity.
Defined.

Lemma alert_list_is_ten_newest_unread_witness :
  In (Alert.mk "a2" "t" "g1" "missed_dose" 20 None) Sample2.alerts
  /\ Alert.caregiver_id (Alert.mk "a2" "t" "g1" "missed_dose" 20 None) = "g1"
  /\ Alert.read_at (Alert.mk "a2" "t" "g1" "missed_dose" 20 None) = None
  /\ CaregiverAlerts.joined Sample.busy_day
       (Alert.mk "a2" "t" "g1" "missed_dose" 20 None) = true.
Proof.
  apply (proj2 (proj2 (alert_list_is_ten_newest_unread Sample.busy_day
                         Sample2.alerts "g1"))).
  vm_compute. left. reflexivity.
Defined.

Lemma dismissing_an_alert_removes_it_alone_witness :
  In (Alert.mk "a2" "t" "g1" "missed_dose" 20 None)
     (CaregiverAlerts.alertsData Sample.busy_day
        (CaregiverAlerts.markAlertRead "a1" 30 Sample2.alerts) "g1").
Proof.
  apply (proj2 (dismissing_an_alert_removes_it_alone Sample.busy_day
                  Sample2.alerts "g1" "a1" 30)).
  - vm_compute. left. reflexivity.
  - discriminate.
Defined.

Lemma added_medication_is_listed_with_its_schedule_witness :
  In {| med := Medication.mk "log-0" "p1" "Ibuprofen" "200 mg" "" true 20;
        med_schedules :=
          [Schedule.mk "log-1" "log-0" "09:30:00" [1; 2] true] |}
     (medications
        (state (fst (AddMedicationModal.handleSubmit (Some "p1") "Ibuprofen"
                       "200 mg" "" "09:30" [1; 2] Sample2.with_seconds 20
                       Sample.at_0730 (Sample.world []))))).
Proof.
  apply (added_medication_is_listed_with_its_schedule "p1" "Ibuprofen"
           "200 mg" "" "09:30" [1; 2] Sample2.with_seconds 20 Sample.at_0730
           (Sample.world []) "09:30:00").
  - reflexivity.
  - reflexivity.
  - intros s [<- | [<- | []]]; vm_compute; discriminate.
Defined.

Lemma refused_time_leaves_medication_without_schedule_witness :
  Db.schedules
    (db (fst (AddMedicationModal.handleSubmit (Some "p1") "Ibuprofen"
                "200 mg" "" "09:30" [1; 2] Sample2.refuse 20
                Sample.at_0730 (Sample.world []))))
  = Db.schedules (db (Sample.world [])).
Proof.
  apply (refused_time_leaves_medication_without_schedule "p1" "Ibuprofen"
           "200 mg" "" "09:30" [1; 2] Sample2.refuse 20 Sample.at_0730
           (Sample.world [])).
  reflexivity.
Defined.
